(** * Retry-with-fallback pipeline of [examples/vscode_llm_example_full.py]

    A shallow embedding of the three coroutines [call_vscode_llm],
    [call_anthropic_fallback] and [call_llm_with_fallback], together with the
    Python values, exceptions and effects they use.

    - JSON documents and Python objects are values of [pyval].
    - A Python exception is a value of [exn]; a computation either returns
      or raises, and records the effects it performed (requests, sleeps,
      printed lines) in the order it performed them: the monad [M].
    - What lies outside the script (the proxy behind the endpoint, the
      Anthropic service, the process environment) is a [world]: the k-th
      POST of an invocation is answered by [primary w k].
    - Strings are sequences of 8-bit characters; [str.lower] is modelled on
      the ASCII letters. *)

From Stdlib Require Import ZArith List String Ascii Bool Arith Lia.
From Stdlib Require Import PrimFloat DecimalString.
Import ListNotations.

Set Warnings "-register-all".
Local Open Scope string_scope.
Local Open Scope list_scope.

(* ================================================================== *)
(** ** Python values *)

(** What [json.loads] produces, which is also all the script handles. A
    [PDict] lists its entries; the first entry for a key is the binding. *)
Inductive pyval : Type :=
| PNone
| PBool (b : bool)
| PInt (n : Z)
| PFloat (x : float)
| PStr (s : string)
| PList (items : list pyval)
| PDict (entries : list (string * pyval)).

(** Exceptions, by what the script can tell of them. The first four are
    the script's own hierarchy (lines 29-46): [VSCodeLLMError] is the base
    class and the constructor stands for an instance of exactly that class.
    [ClientError] is [aiohttp.ClientError] or any subclass of it. The
    built-in classes stand for the exceptions the statements of the script
    raise themselves. [OtherError] is any exception raised outside the
    script (by aiohttp, by the JSON decoder, by the Anthropic SDK) that is
    not an [aiohttp.ClientError], with the name of its class: an
    [asyncio.TimeoutError], a [json.JSONDecodeError] (in Python a subclass
    of [ValueError]), an error of the SDK. No [except] clause of the script
    tells these apart. *)
Inductive exn : Type :=
| VSCodeLLMError (msg : string)
| ContentFilteredError (msg : string)
| EmptyResponseError (msg : string)
| VSCodeLLMConnectionError (msg : string)
| ClientError (msg : string)
| KeyError (key : pyval)
| IndexError
| TypeError
| AttributeError
| ValueError (msg : string)
| OtherError (cls msg : string).

(** [isinstance(e, VSCodeLLMError)] *)
Definition is_VSCodeLLMError (e : exn) : bool :=
  match e with
  | VSCodeLLMError _ | ContentFilteredError _ | EmptyResponseError _
  | VSCodeLLMConnectionError _ => true
  | _ => false
  end.

(** [str(e)] for the exceptions whose message the script prints. *)
Definition str_of_exn (e : exn) : string :=
  match e with
  | VSCodeLLMError m | ContentFilteredError m | EmptyResponseError m
  | VSCodeLLMConnectionError m | ClientError m | ValueError m
  | OtherError _ m => m
  | KeyError _ | IndexError | TypeError | AttributeError => ""
  end.

(** Truth value of an object ([not x], [if x:], [x or y]). *)
Definition truthy (v : pyval) : bool :=
  match v with
  | PNone => false
  | PBool b => b
  | PInt n => negb (n =? 0)%Z
  | PFloat x => negb (PrimFloat.eqb x 0%float)
  | PStr s => negb (s =? "")
  | PList items => match items with [] => false | _ :: _ => true end
  | PDict entries => match entries with [] => false | _ :: _ => true end
  end.

Fixpoint dict_lookup (entries : list (string * pyval)) (key : string)
  : option pyval :=
  match entries with
  | [] => None
  | (k, v) :: rest => if k =? key then Some v else dict_lookup rest key
  end.

(** [obj.get(key, default)]: only a dict has the method. *)
Definition py_get (obj : pyval) (key : string) (default : pyval)
  : exn + pyval :=
  match obj with
  | PDict entries =>
      inr (match dict_lookup entries key with Some v => v | None => default end)
  | _ => inl AttributeError
  end.

(** [obj[key]] for a string key. *)
Definition py_getitem (obj : pyval) (key : string) : exn + pyval :=
  match obj with
  | PDict entries =>
      match dict_lookup entries key with
      | Some v => inr v
      | None => inl (KeyError (PStr key))
      end
  | _ => inl TypeError
  end.

(** [obj[0]]. The keys of a parsed JSON object are strings, so a dict has
    no key [0]. *)
Definition py_getitem_0 (obj : pyval) : exn + pyval :=
  match obj with
  | PList (first :: _) => inr first
  | PList [] => inl IndexError
  | PStr (String c _) => inr (PStr (String c ""))
  | PStr EmptyString => inl IndexError
  | PDict _ => inl (KeyError (PInt 0))
  | _ => inl TypeError
  end.

(* ================================================================== *)
(** ** Strings *)

Definition ascii_lower (c : ascii) : ascii :=
  let n := nat_of_ascii c in
  if ((65 <=? n) && (n <=? 90))%nat then ascii_of_nat (n + 32) else c.

(** [s.lower()] *)
Fixpoint lower (s : string) : string :=
  match s with
  | EmptyString => EmptyString
  | String c rest => String (ascii_lower c) (lower rest)
  end.

(** [needle in hay] *)
Fixpoint str_in (needle hay : string) : bool :=
  if prefix needle hay then true
  else match hay with
       | EmptyString => false
       | String _ rest => str_in needle rest
       end.

(** Truth value of a [str]. *)
Definition str_truthy (s : string) : bool := negb (s =? "").

(** An integer formatted by an f-string. *)
Definition str_of_Z (n : Z) : string := NilZero.string_of_int (Z.to_int n).

(* ================================================================== *)
(** ** The world around the script *)

(** An exception raised by [aiohttp]: a [ClientError], or something else. *)
Inductive ext_exn : Type :=
| ExtClientError (msg : string)
| ExtOther (cls msg : string).

Definition raised (e : ext_exn) : exn :=
  match e with
  | ExtClientError m => ClientError m
  | ExtOther cls m => OtherError cls m
  end.

(** The response object of [session.post]: its [status], and what
    [await response.text()] and [await response.json()] give. *)
Record response : Type := {
  status : Z;
  text : ext_exn + string;
  json : ext_exn + pyval
}.

Inductive post_outcome : Type :=
| PostRaises (e : ext_exn)
| PostResponse (r : response).

(** A block of [response.content] of the Anthropic SDK:
    [hasattr(block, 'text')] holds of a [TextBlock] only. *)
Inductive content_block : Type :=
| TextBlock (text : string)
| OtherBlock.

Record message : Type := {
  content : list content_block;
  input_tokens : Z;
  output_tokens : Z
}.

(** What [await client.messages.create(...)] gives: an answer, or an
    exception of the SDK, of whatever class, which the script lets
    through. *)
Inductive anthropic_outcome : Type :=
| AnthropicRaises (cls msg : string)
| AnthropicMessage (m : message).

(** [VSCODE_MAX_RETRIES] is the module-level constant of line 25 ([3] in the
    file as shipped, see [shipped]); the [env_] fields are the process
    environment ([None]: the variable is not set). *)
Record world : Type := {
  VSCODE_MAX_RETRIES : nat;
  env_VSCODE_LLM_FALLBACK : option string;
  env_VSCODE_LLM_ENDPOINT : option string;
  env_ANTHROPIC_API_KEY : option string;
  primary : nat -> post_outcome;
  anthropic : anthropic_outcome
}.

(** [os.getenv(name, default)] *)
Definition getenv_default (var : option string) (default : string) : string :=
  match var with Some v => v | None => default end.

(** The truth value of [os.getenv(name)]. *)
Definition getenv_truthy (var : option string) : bool :=
  match var with Some v => str_truthy v | None => false end.

(** Line 26. *)
Definition VSCODE_LLM_FALLBACK_ENABLED (w : world) : bool :=
  lower (getenv_default (env_VSCODE_LLM_FALLBACK w) "true") =? "true".

(* ================================================================== *)
(** ** Effects *)

(** One constructor per [print] statement of the three coroutines, with the
    values it interpolates. *)
Inductive line : Type :=
| LCalling (endpoint : string)
| LPrompt (shown : string)
| LPrimaryOk (attempt1 : nat)
| LPrimaryTokens (input output : pyval)
| LFailConnection (attempt1 : nat) (e : string)
| LFailClassified (type_name : string) (attempt1 : nat) (e : string)
| LFailLLM (attempt1 : nat) (e : string)
| LRetrying (wait_time : Z)
| LPrimaryFailed (retries : nat) (e : string)
| LFallbackDisabled
| LNoApiKey
| LFallingBack
| LModel (model : string)
| LAnthropicOk
| LAnthropicTokens (input output : Z).

Inductive event : Type :=
| Print (l : line)
| Post (attempt : nat)      (* [session.post(endpoint, ...)] of that attempt *)
| Sleep (seconds : Z)       (* [await asyncio.sleep(seconds)] *)
| AnthropicCreate.          (* [await client.messages.create(...)] *)

(** A computation: the events it performed, oldest first, and how it
    ended. *)
Definition M (A : Type) : Type := list event * (exn + A).

Definition ret {A} (a : A) : M A := ([], inr a).
Definition raise {A} (e : exn) : M A := ([], inl e).
Definition emit (ev : event) : M unit := ([ev], inr tt).
Definition print (l : line) : M unit := emit (Print l).

Definition bind {A B} (c : M A) (k : A -> M B) : M B :=
  match c with
  | (t, inl e) => (t, inl e)
  | (t, inr a) => let (t', r) := k a in (t ++ t', r)
  end.

(** [try: c  except ... as e: handler e]; a handler that does not match
    re-raises. *)
Definition catch {A} (c : M A) (handler : exn -> M A) : M A :=
  match c with
  | (t, inl e) => let (t', r) := handler e in (t ++ t', r)
  | (t, inr a) => (t, inr a)
  end.

(** A pure operation that may raise. *)
Definition lift {A} (r : exn + A) : M A := ([], r).

(** [await] of something the world answers. *)
Definition await {A} (r : ext_exn + A) : M A :=
  match r with
  | inl e => raise (raised e)
  | inr a => ret a
  end.

Declare Scope py_scope.
Delimit Scope py_scope with py.
Notation "x <- c ;; k" := (bind c (fun x => k))
  (at level 61, c at next level, right associativity) : py_scope.
Notation "c ;; k" := (bind c (fun _ => k))
  (at level 61, right associativity) : py_scope.
Local Open Scope py_scope.

Definition trace {A} (c : M A) : list event := fst c.
Definition outcome {A} (c : M A) : exn + A := snd c.

(* ================================================================== *)
(** ** [call_vscode_llm] (lines 49-141) *)

(** Line 72. *)
Definition endpoint (w : world) : string :=
  getenv_default (env_VSCODE_LLM_ENDPOINT w)
                 "http://127.0.0.1:8080/v1/chat/completions".

(** Lines 98-120: what is done with the response inside the two
    [async with] blocks. Returning stands for [return content]. *)
Definition read_response (attempt : nat) (resp : response) : M pyval :=
  if negb (status resp =? 200)%Z then
    error_text <- await (text resp) ;;
    if str_in "filtered" (lower error_text)
    then raise (ContentFilteredError ("Content filtered: " ++ error_text))
    else raise (VSCodeLLMError ("API error (" ++ str_of_Z (status resp)
                                 ++ "): " ++ error_text))
  else
    data <- await (json resp) ;;
    choices <- lift (py_get data "choices" PNone) ;;
    if negb (truthy choices)
    then raise (EmptyResponseError "No choices in response")
    else
      choices <- lift (py_getitem data "choices") ;;
      first <- lift (py_getitem_0 choices) ;;
      msg <- lift (py_getitem first "message") ;;
      content <- lift (py_getitem msg "content") ;;
      if negb (truthy content)
      then raise (EmptyResponseError "Empty content in response")
      else
        usage <- lift (py_get data "usage" (PDict [])) ;;
        print (LPrimaryOk (attempt + 1)) ;;
        (if truthy usage
         then input <- lift (py_get usage "prompt_tokens" (PStr "?")) ;;
              output <- lift (py_get usage "completion_tokens" (PStr "?")) ;;
              print (LPrimaryTokens input output)
         else ret tt) ;;
        ret content.

(** Lines 91-120: the body of the [try]. *)
Definition request (w : world) (attempt : nat) : M pyval :=
  emit (Post attempt) ;;
  match primary w attempt with
  | PostRaises e => raise (raised e)
  | PostResponse resp => read_response attempt resp
  end.

(** Lines 122-132: the three [except] clauses, in order. The result is the
    new [last_error]; an exception no clause matches propagates. *)
Definition on_error (attempt : nat) (e : exn) : M exn :=
  match e with
  | ClientError m =>
      print (LFailConnection (attempt + 1) m) ;;
      ret (VSCodeLLMConnectionError ("Connection error: " ++ m))
  | ContentFilteredError m =>
      print (LFailClassified "ContentFilteredError" (attempt + 1) m) ;;
      ret e
  | EmptyResponseError m =>
      print (LFailClassified "EmptyResponseError" (attempt + 1) m) ;;
      ret e
  | VSCodeLLMError m | VSCodeLLMConnectionError m =>
      print (LFailLLM (attempt + 1) m) ;;
      ret e
  | _ => raise e
  end.

(** Lines 90-132: one [try] statement. [inl content]: the function returns
    [content]; [inr e]: the loop goes on with [last_error = e]. *)
Definition attempt_once (w : world) (attempt : nat) : M (pyval + exn) :=
  catch (content <- request w attempt ;; ret (inl content))
        (fun e => last_error <- on_error attempt e ;; ret (inr last_error)).

(** Line 136. *)
Definition wait_time (attempt : nat) : Z := (2 ^ (Z.of_nat attempt + 1))%Z.

(** Lines 134-138. *)
Definition backoff (w : world) (attempt : nat) : M unit :=
  if (attempt <? VSCODE_MAX_RETRIES w - 1)%nat
  then print (LRetrying (wait_time attempt)) ;; emit (Sleep (wait_time attempt))
  else ret tt.

(** Line 141: [last_error or VSCodeLLMError("All retries failed")]; an
    exception object is truthy. *)
Definition exhausted (last_error : option exn) : exn :=
  match last_error with
  | Some e => e
  | None => VSCodeLLMError "All retries failed"
  end.

(** Lines 89-141: the [for] loop over the attempts still to make, and the
    [raise] after it. *)
Fixpoint retry_loop (w : world) (attempts : list nat)
  (last_error : option exn) : M pyval :=
  match attempts with
  | [] => raise (exhausted last_error)
  | attempt :: rest =>
      r <- attempt_once w attempt ;;
      match r with
      | inl content => ret content
      | inr e => backoff w attempt ;; retry_loop w rest (Some e)
      end
  end.

(** [prompt[:80]] followed by the ellipsis of line 85. *)
Definition shown_prompt (prompt : string) : string :=
  substring 0 80 prompt ++ (if (80 <? String.length prompt)%nat then "..." else "").

Definition call_vscode_llm (w : world) (prompt : string) : M pyval :=
  print (LCalling (endpoint w)) ;;
  print (LPrompt (shown_prompt prompt)) ;;
  retry_loop w (seq 0 (VSCODE_MAX_RETRIES w)) None.

(* ================================================================== *)
(** ** [call_anthropic_fallback] (lines 144-191) *)

(** Lines 182-185. *)
Fixpoint join_text (blocks : list content_block) : string :=
  match blocks with
  | [] => ""
  | TextBlock t :: rest => t ++ join_text rest
  | OtherBlock :: rest => join_text rest
  end.

Definition call_anthropic_fallback (w : world)
  (model : string) : M pyval :=
  if negb (getenv_truthy (env_ANTHROPIC_API_KEY w))
  then raise (ValueError "ANTHROPIC_API_KEY not set - cannot use fallback")
  else
    print LFallingBack ;;
    print (LModel model) ;;
    emit AnthropicCreate ;;
    match anthropic w with
    | AnthropicRaises cls msg => raise (OtherError cls msg)
    | AnthropicMessage m =>
        print LAnthropicOk ;;
        print (LAnthropicTokens (input_tokens m) (output_tokens m)) ;;
        ret (PStr (join_text (content m)))
    end.

(* ================================================================== *)
(** ** [call_llm_with_fallback] (lines 194-241) *)

(** Lines 224-241: the body of the [except VSCodeLLMError as e] clause. A
    bare [raise] re-raises [e]. *)
Definition fallback_or_raise (w : world) (e : exn) : M pyval :=
  print (LPrimaryFailed (VSCODE_MAX_RETRIES w) (str_of_exn e)) ;;
  if negb (VSCODE_LLM_FALLBACK_ENABLED w)
  then print LFallbackDisabled ;; raise e
  else if negb (getenv_truthy (env_ANTHROPIC_API_KEY w))
  then print LNoApiKey ;; raise e
  else call_anthropic_fallback w "claude-sonnet-4-20250514".

Definition call_llm_with_fallback (w : world) (prompt : string) : M pyval :=
  catch (call_vscode_llm w prompt)
        (fun e => if is_VSCodeLLMError e then fallback_or_raise w e
                  else raise e).

(* ================================================================== *)
(** ** Observations on a run *)

(** The events other than printed lines: requests and sleeps. *)
Definition is_wire (ev : event) : bool :=
  match ev with Print _ => false | _ => true end.

Definition wire (t : list event) : list event := filter is_wire t.

Definition is_post (ev : event) : bool :=
  match ev with Post _ => true | _ => false end.

Definition is_anthropic (ev : event) : bool :=
  match ev with AnthropicCreate => true | _ => false end.

(** Number of requests sent to the primary backend. *)
Definition posts (t : list event) : nat := List.length (filter is_post t).

(** Number of requests sent to the secondary backend. *)
Definition anthropic_calls (t : list event) : nat :=
  List.length (filter is_anthropic t).

(** The delays slept, in order. *)
Fixpoint sleeps (t : list event) : list Z :=
  match t with
  | [] => []
  | Sleep s :: rest => s :: sleeps rest
  | _ :: rest => sleeps rest
  end.

(** The coroutines return a bare string. Which backend produced it shows in
    the success line printed just before the [return] (line 115 for the
    primary backend, line 187 for the secondary): [source_of] is the backend
    of the last such line of a run. *)
Inductive source : Type := PRIMARY | FALLBACK.

Definition ok_source (ev : event) : option source :=
  match ev with
  | Print (LPrimaryOk _) => Some PRIMARY
  | Print LAnthropicOk => Some FALLBACK
  | _ => None
  end.

Fixpoint source_of (t : list event) : option source :=
  match t with
  | [] => None
  | ev :: rest =>
      match source_of rest with
      | Some s => Some s
      | None => ok_source ev
      end
  end.

(** How one attempt ends: [return content], an exception one of the
    [except] clauses records as [last_error], or an exception none of them
    matches. *)
Inductive attempt_result : Type :=
| Succeeded (content : pyval)
| Failed (last_error : exn)
| Escaped (e : exn).

Definition attempt_result_of (w : world) (attempt : nat) : attempt_result :=
  match outcome (attempt_once w attempt) with
  | inr (inl content) => Succeeded content
  | inr (inr e) => Failed e
  | inl e => Escaped e
  end.

(** How the function ends when an attempt ends the loop. *)
Definition stops_with (r : attempt_result) : option (exn + pyval) :=
  match r with
  | Succeeded content => Some (inr content)
  | Escaped e => Some (inl e)
  | Failed _ => None
  end.

(** The attempts before [k] all failed with a recorded error. *)
Definition fails_before (w : world) (k : nat) : Prop :=
  forall j, j < k -> exists e, attempt_result_of w j = Failed e.

(** The primary backend succeeds within the retry budget, with [content]. *)
Definition primary_succeeds (w : world) (content : pyval) : Prop :=
  exists k, k < VSCODE_MAX_RETRIES w /\ fails_before w k /\
            attempt_result_of w k = Succeeded content.

(** All the attempts of the budget failed with a recorded error. *)
Definition primary_exhausted (w : world) : Prop :=
  fails_before w (VSCODE_MAX_RETRIES w).

(** The requests and sleeps of a run of the loop in which the given attempts
    all fail: each request, followed by its backoff unless the attempt is the
    last of the budget. *)
Definition schedule (w : world) (attempts : list nat) : list event :=
  flat_map (fun k => Post k ::
                     (if (k <? VSCODE_MAX_RETRIES w - 1)%nat
                      then [Sleep (wait_time k)] else []))
           attempts.

(** Fallback is configured: the credential is present. *)
Definition fallback_available (w : world) : bool :=
  getenv_truthy (env_ANTHROPIC_API_KEY w).

(** The base of the backoff, the literal of line 136. *)
Definition backoff_base_seconds : Z := 2.

(** [needle] occurs in [body] up to the case of letters. *)
Definition contains_ci (needle body : string) : Prop :=
  exists pre mid post : string,
    body = (pre ++ mid ++ post)%string /\ lower mid = lower needle.

(** The error kinds of the specification, and the kind an exception of the
    script stands for: the script's hierarchy has one class per kind of
    [BackendError], the base class being raised for a status other than 200.
    No class stands for [FallbackUnavailable]. *)
Inductive error_kind : Type :=
| ConnectionError
| ContentFiltered
| EmptyResponse
| ProtocolError
| FallbackUnavailable.

Definition kind_of (e : exn) : option error_kind :=
  match e with
  | VSCodeLLMConnectionError _ => Some ConnectionError
  | ContentFilteredError _ => Some ContentFiltered
  | EmptyResponseError _ => Some EmptyResponse
  | VSCodeLLMError _ => Some ProtocolError
  | _ => None
  end.

(** The exception stands for one of the kinds of the specification. *)
Definition in_taxonomy (e : exn) : Prop := exists kind, kind_of e = Some kind.

(** The content of the message of the first choice of a chat-completion
    document [{choices: [{message: {content}}]}], when it has that shape. *)
Definition first_choice_content (data : pyval) : option pyval :=
  match data with
  | PDict entries =>
      match dict_lookup entries "choices" with
      | Some (PList (PDict choice :: _)) =>
          match dict_lookup choice "message" with
          | Some (PDict msg) => dict_lookup msg "content"
          | _ => None
          end
      | _ => None
      end
  | _ => None
  end.

(** The [usage] member of a chat-completion document is an object
    [{prompt_tokens, completion_tokens}], or is absent or empty. *)
Definition usage_well_formed (data : pyval) : bool :=
  match data with
  | PDict entries =>
      match dict_lookup entries "usage" with
      | None | Some (PDict _) => true
      | Some u => negb (truthy u)
      end
  | _ => false
  end.

(* ================================================================== *)
(** ** Concrete worlds *)

Definition chat_completion (content : pyval) : pyval :=
  PDict [("choices", PList [PDict [("message", PDict [("content", content)])]])].

(** A response with status 200 and the given JSON document as body. *)
Definition ok_response (data : pyval) : response :=
  {| status := 200; text := inr ""; json := inr data |}.

(** A response with another status and a body that is not JSON. *)
Definition error_response (code : Z) (body : string) : response :=
  {| status := code; text := inr body;
     json := inl (ExtClientError "ContentTypeError") |}.

Definition hello : message :=
  {| content := [TextBlock "Hello"; OtherBlock; TextBlock " world"];
     input_tokens := 12; output_tokens := 2 |}.

(** The script as shipped, with the environment of its docstring, in front
    of a proxy that answers every request the same way. *)
Definition shipped (answer : post_outcome) (api : anthropic_outcome) : world :=
  {| VSCODE_MAX_RETRIES := 3;
     env_VSCODE_LLM_FALLBACK := None;
     env_VSCODE_LLM_ENDPOINT := None;
     env_ANTHROPIC_API_KEY := Some "sk-ant-test";
     primary := fun _ => answer;
     anthropic := api |}.

(** The same with another budget, fallback switched off and no key. *)
Definition no_fallback (n : nat) (answer : nat -> post_outcome) : world :=
  {| VSCODE_MAX_RETRIES := n;
     env_VSCODE_LLM_FALLBACK := Some "False";
     env_VSCODE_LLM_ENDPOINT := None;
     env_ANTHROPIC_API_KEY := None;
     primary := answer;
     anthropic := AnthropicRaises "anthropic.AuthenticationError" "401" |}.

(* ================================================================== *)
(** ** Further observations *)

(** Seconds slept in all. *)
Definition total_sleep (t : list event) : Z :=
  fold_right Z.add 0%Z (sleeps t).

(** The answer of the secondary backend has no text: every block is
    something else than text, or a text block that is empty. *)
Definition no_text (blocks : list content_block) : Prop :=
  forall t, In (TextBlock t) blocks -> t = "".

(** An exception other than [aiohttp.ClientError] comes out of the request:
    out of [session.post] itself, or out of reading the body (the text for a
    status other than 200, the JSON document for status 200). *)
Definition raises_foreign (o : post_outcome) (cls msg : string) : Prop :=
  o = PostRaises (ExtOther cls msg) \/
  exists resp,
    o = PostResponse resp /\
    ((status resp <> 200%Z /\ text resp = inl (ExtOther cls msg)) \/
     (status resp = 200%Z /\ json resp = inl (ExtOther cls msg))).

(** An [aiohttp.ClientError] comes out of reading the body of a response
    that did arrive. *)
Definition body_raises_client_error (resp : response) (msg : string) : Prop :=
  (status resp <> 200%Z /\ text resp = inl (ExtClientError msg)) \/
  (status resp = 200%Z /\ json resp = inl (ExtClientError msg)).

(** What reading a response may raise: of the script's own classes, a
    [ContentFilteredError], an [EmptyResponseError], or the base class with
    the status and the body in its message. *)
Definition raised_by_reading (resp : response) (e : exn) : Prop :=
  match e with
  | VSCodeLLMError m =>
      exists body : string,
        m = ("API error (" ++ str_of_Z (status resp) ++ "): " ++ body)%string
  | VSCodeLLMConnectionError _ => False
  | _ => True
  end.

(* ================================================================== *)
(** ** [main] (lines 244-317) *)

(** What [main] prints, one constructor per kind of [print] statement; a
    leading newline is not recorded. *)
Inductive main_line : Type :=
| MRule (heavy : bool)           (* ["=" * 70] or ["-" * 70] *)
| MText (s : string)             (* a literal *)
| MEndpoint (endpoint : string)
| MMaxRetries (n : nat)
| MFallbackEnabled (b : bool)
| MKey (set : bool)
| MResponse (response : pyval)
| MFailed (e : exn).

(** An event of [main]: a line of its own, or an event of one of its calls
    of [call_llm_with_fallback]. *)
Inductive main_event : Type :=
| Shown (l : main_line)
| Ran (ev : event).

Definition Main (A : Type) : Type := list main_event * (exn + A).

Definition main_ret {A} (a : A) : Main A := ([], inr a).

Definition show (l : main_line) : Main unit := ([Shown l], inr tt).

Definition main_bind {A B} (c : Main A) (k : A -> Main B) : Main B :=
  match c with
  | (t, inl e) => (t, inl e)
  | (t, inr a) => let (t', r) := k a in (t ++ t', r)
  end.

(** [await] of a coroutine of the script. *)
Definition call {A} (c : M A) : Main A := (map Ran (fst c), snd c).

(** [try: c  except Exception as e: handler e], for a body that yields
    [inl] to go on after the statement and a handler that yields [inr] to
    return from [main]. Every exception of [exn] is an [Exception]. *)
Definition main_try (c : Main unit) (handler : exn -> Main (unit + unit))
  : Main (unit + unit) :=
  match c with
  | (t, inl e) => let (t', r) := handler e in (t ++ t', r)
  | (t, inr _) => (t, inr (inl tt))
  end.

Notation "c ;;; k" := (main_bind c (fun _ => k))
  (at level 61, right associativity) : py_scope.

(** The world of the second call of a process: the same configuration and
    environment, and the answers the backends give to that call. *)
Definition second_call (w : world) (answer : nat -> post_outcome)
  (api : anthropic_outcome) : world :=
  {| VSCODE_MAX_RETRIES := VSCODE_MAX_RETRIES w;
     env_VSCODE_LLM_FALLBACK := env_VSCODE_LLM_FALLBACK w;
     env_VSCODE_LLM_ENDPOINT := env_VSCODE_LLM_ENDPOINT w;
     env_ANTHROPIC_API_KEY := env_ANTHROPIC_API_KEY w;
     primary := answer;
     anthropic := api |}.

Definition prompt_1 : string := "What is 2 + 2? Answer in one word.".
Definition prompt_2 : string :=
  "Write a one-line Python lambda that squares a number.".

(** Lines 247-256. *)
Definition main_header (w : world) : Main unit :=
  show (MRule true) ;;;
  show (MText "VS CODE LLM EXAMPLE WITH RETRY AND ANTHROPIC FALLBACK") ;;;
  show (MRule true) ;;;
  show (MText "Configuration:") ;;;
  show (MEndpoint (endpoint w)) ;;;
  show (MMaxRetries (VSCODE_MAX_RETRIES w)) ;;;
  show (MFallbackEnabled (VSCODE_LLM_FALLBACK_ENABLED w)) ;;;
  show (MKey (getenv_truthy (env_ANTHROPIC_API_KEY w))).

(** The three lines that announce an example. *)
Definition main_title (title : string) : Main unit :=
  show (MRule false) ;;; show (MText title) ;;; show (MRule false).

(** The body of both [try] statements (lines 264-268 and 283-288). *)
Definition main_example (w : world) (prompt : string) : Main unit :=
  main_bind (call (call_llm_with_fallback w prompt))
            (fun response => show (MResponse response)).

(** Lines 271-274. *)
Definition main_make_sure : Main unit :=
  show (MText "Make sure:") ;;;
  show (MText "  1. VS Code is running with GitHub Copilot") ;;;
  show (MText "  2. The LLM proxy server is running at 127.0.0.1:8080") ;;;
  show (MText "  3. Set ANTHROPIC_API_KEY for fallback support").

Definition main (w : world) (answer : nat -> post_outcome)
  (api : anthropic_outcome) : Main unit :=
  main_header w ;;;
  main_title "EXAMPLE 1: Simple Question" ;;;
  main_bind
    (main_try (main_example w prompt_1)
       (fun e => show (MFailed e) ;;; main_make_sure ;;; main_ret (inr tt)))
    (fun r =>
       match r with
       | inr _ => main_ret tt                       (* [return], line 275 *)
       | inl _ =>
           main_title "EXAMPLE 2: Code Generation" ;;;
           main_bind
             (main_try (main_example (second_call w answer api) prompt_2)
                (fun e => show (MFailed e) ;;; main_ret (inl tt)))
             (fun _ =>
                show (MRule true) ;;; show (MText "DONE") ;;;
                show (MRule true))
       end).

(** The events of the calls of [call_llm_with_fallback], in order. *)
Fixpoint ran (t : list main_event) : list event :=
  match t with
  | [] => []
  | Ran ev :: rest => ev :: ran rest
  | Shown _ :: rest => ran rest
  end.

(** The lines of [main] itself, in order. *)
Fixpoint shown (t : list main_event) : list main_line :=
  match t with
  | [] => []
  | Shown l :: rest => l :: shown rest
  | Ran _ :: rest => shown rest
  end.

(* ================================================================== *)
(** ** The endpoint of [list_tools] ([examples/vscode_llm_list_tools.py],
       lines 41-46) *)

(** [s.rfind(sep)]: the highest index at which [sep] starts in [s]. *)
Fixpoint rfind (sep s : string) : option nat :=
  match s with
  | EmptyString => if prefix sep s then Some 0 else None
  | String _ rest =>
      match rfind sep rest with
      | Some i => Some (S i)
      | None => if prefix sep s then Some 0 else None
      end
  end.

(** [s.rsplit(sep, 1)[0]]: what precedes the last occurrence of [sep], or
    [s] when there is none. *)
Definition rsplit_head (sep s : string) : string :=
  match rfind sep s with
  | Some i => substring 0 i s
  | None => s
  end.

Definition tools_endpoint (w : world) : string :=
  let base_url :=
    getenv_default (env_VSCODE_LLM_ENDPOINT w) "http://127.0.0.1:8080" in
  let base_url :=
    if str_in "/v1/chat" base_url then rsplit_head "/v1/" base_url
    else base_url in
  base_url ++ "/v1/tools".

(* ================================================================== *)
(** ** The coroutines without retry

    [call_vscode_llm] of [examples/vscode_llm_example_simple.py] (lines
    21-84) and [chat_with_auto_tools] of [examples/vscode_llm_tools_auto.py]
    (lines 22-90) send one request and read its answer. They raise plain
    [Exception]s, modelled as [OtherError "Exception"]. *)

Inductive script_line : Type :=
| SCalling (endpoint : string)
| SModel (model : string)
| SPrompt (shown : string)
| SRule (width : nat)                 (* ["-" * width] *)
| STokens (input output : pyval)
| SSending (endpoint : string)
| SUseTools (use_vscode_tools : bool)
| SToolExecution (tool_execution : string)
| SMaxToolRounds (max_tool_rounds : Z)
| SWarning (s : string).

Inductive script_event : Type :=
| Said (l : script_line)
| Posted.                             (* [session.post(endpoint, ...)] *)

Definition Script (A : Type) : Type := list script_event * (exn + A).

Definition s_ret {A} (a : A) : Script A := ([], inr a).
Definition s_raise {A} (e : exn) : Script A := ([], inl e).
Definition s_emit (ev : script_event) : Script unit := ([ev], inr tt).
Definition say (l : script_line) : Script unit := s_emit (Said l).
Definition s_lift {A} (r : exn + A) : Script A := ([], r).

Definition s_await {A} (r : ext_exn + A) : Script A :=
  match r with
  | inl e => s_raise (raised e)
  | inr a => s_ret a
  end.

Definition s_bind {A B} (c : Script A) (k : A -> Script B) : Script B :=
  match c with
  | (t, inl e) => (t, inl e)
  | (t, inr a) => let (t', r) := k a in (t ++ t', r)
  end.

Notation "x <~ c ;; k" := (s_bind c (fun x => k))
  (at level 61, c at next level, right associativity) : py_scope.
Notation "c ~;; k" := (s_bind c (fun _ => k))
  (at level 61, right associativity) : py_scope.

(** Lines 66-68 of the first, 73-75 of the second. *)
Definition api_error (resp : response) : Script pyval :=
  error_text <~ s_await (text resp) ;;
  s_raise (OtherError "Exception"
             ("API error (" ++ str_of_Z (status resp) ++ "): " ++ error_text)).

(** [call_vscode_llm] of the simple example; [answer] is what its request
    gives. *)
Definition simple_call_vscode_llm (w : world) (answer : post_outcome)
  (prompt model : string) : Script pyval :=
  say (SCalling (endpoint w)) ~;;
  say (SModel model) ~;;
  say (SPrompt (substring 0 100 prompt ++
                (if (100 <? String.length prompt)%nat then "..." else ""))) ~;;
  say (SRule 50) ~;;
  s_emit Posted ~;;
  match answer with
  | PostRaises e => s_raise (raised e)
  | PostResponse resp =>
      if negb (status resp =? 200)%Z then api_error resp
      else
        data <~ s_await (json resp) ;;
        choices <~ s_lift (py_get data "choices" PNone) ;;
        if negb (truthy choices)
        then s_raise (OtherError "Exception" "No choices in response")
        else
          choices <~ s_lift (py_getitem data "choices") ;;
          first <~ s_lift (py_getitem_0 choices) ;;
          msg <~ s_lift (py_getitem first "message") ;;
          content <~ s_lift (py_getitem msg "content") ;;
          usage <~ s_lift (py_get data "usage" (PDict [])) ;;
          (if truthy usage
           then input <~ s_lift (py_get usage "prompt_tokens" (PStr "?")) ;;
                output <~ s_lift (py_get usage "completion_tokens" (PStr "?")) ;;
                say (STokens input output)
           else s_ret tt) ~;;
          s_ret content
  end.

(** [chat_with_auto_tools]; [answer] is what its request gives. *)
Definition chat_with_auto_tools (w : world) (answer : post_outcome)
  (use_vscode_tools : bool) (tool_execution : string) (max_tool_rounds : Z)
  : Script pyval :=
  say (SSending (endpoint w)) ~;;
  say (SUseTools use_vscode_tools) ~;;
  say (SToolExecution tool_execution) ~;;
  say (SMaxToolRounds max_tool_rounds) ~;;
  say (SRule 40) ~;;
  s_emit Posted ~;;
  match answer with
  | PostRaises e => s_raise (raised e)
  | PostResponse resp =>
      if negb (status resp =? 200)%Z then api_error resp
      else
        data <~ s_await (json resp) ;;
        choices <~ s_lift (py_get data "choices" PNone) ;;
        if negb (truthy choices)
        then s_raise (OtherError "Exception" "No choices in response")
        else
          choices <~ s_lift (py_getitem data "choices") ;;
          choice <~ s_lift (py_getitem_0 choices) ;;
          msg <~ s_lift (py_getitem choice "message") ;;
          tool_calls <~ s_lift (py_get msg "tool_calls" PNone) ;;
          (if truthy tool_calls
           then say (SWarning "Warning: Response still contains tool_calls") ~;;
                say (SWarning "This might mean max_tool_rounds was exceeded")
           else s_ret tt) ~;;
          s_lift (py_get msg "content" (PStr ""))
  end.

(** The number of requests a coroutine without retry has sent. *)
Definition posted (t : list script_event) : nat :=
  List.length (filter (fun ev => match ev with Posted => true | _ => false end) t).

(* ================================================================== *)
(** * Properties *)

Arguments wait_time : simpl never.
Arguments bind : simpl never.
Arguments catch : simpl never.

(** ** The monad and the observations *)

Lemma fst_bind {A B} (c : M A) (k : A -> M B) :
  fst (bind c k) =
  fst c ++ match snd c with inr a => fst (k a) | inl _ => [] end.
Proof.
  destruct c as [t [e|a]]; unfold bind; simpl.
  - now rewrite app_nil_r.
  - now destruct (k a).
Qed.

Lemma snd_bind {A B} (c : M A) (k : A -> M B) :
  snd (bind c k) =
  match snd c with inr a => snd (k a) | inl e => inl e end.
Proof.
  destruct c as [t [e|a]]; unfold bind; simpl; [reflexivity|].
  now destruct (k a).
Qed.

Lemma fst_catch {A} (c : M A) (h : exn -> M A) :
  fst (catch c h) =
  fst c ++ match snd c with inl e => fst (h e) | inr _ => [] end.
Proof.
  destruct c as [t [e|a]]; unfold catch; simpl.
  - now destruct (h e).
  - now rewrite app_nil_r.
Qed.

Lemma snd_catch {A} (c : M A) (h : exn -> M A) :
  snd (catch c h) =
  match snd c with inl e => snd (h e) | inr a => inr a end.
Proof.
  destruct c as [t [e|a]]; unfold catch; simpl; [|reflexivity].
  now destruct (h e).
Qed.

Lemma wire_app t1 t2 : wire (t1 ++ t2) = wire t1 ++ wire t2.
Proof. apply filter_app. Qed.

Lemma posts_app t1 t2 : posts (t1 ++ t2) = posts t1 + posts t2.
Proof. unfold posts. now rewrite filter_app, length_app. Qed.

Lemma anthropic_calls_app t1 t2 :
  anthropic_calls (t1 ++ t2) = anthropic_calls t1 + anthropic_calls t2.
Proof. unfold anthropic_calls. now rewrite filter_app, length_app. Qed.

Lemma sleeps_app t1 t2 : sleeps (t1 ++ t2) = sleeps t1 ++ sleeps t2.
Proof.
  induction t1 as [|ev t1 IH]; simpl; [reflexivity|].
  destruct ev; simpl; now rewrite IH.
Qed.

Lemma source_of_app t1 t2 :
  source_of (t1 ++ t2) =
  match source_of t2 with Some s => Some s | None => source_of t1 end.
Proof.
  induction t1 as [|ev t1 IH]; simpl.
  - now destruct (source_of t2).
  - rewrite IH. now destruct (source_of t2).
Qed.

(** The observations that count events see a run through its [wire]. *)
Lemma posts_wire t : posts (wire t) = posts t.
Proof.
  unfold posts, wire. induction t as [|ev t IH]; simpl; [reflexivity|].
  destruct ev; simpl; now rewrite ?IH.
Qed.

Lemma anthropic_calls_wire t : anthropic_calls (wire t) = anthropic_calls t.
Proof.
  unfold anthropic_calls, wire. induction t as [|ev t IH]; simpl; [reflexivity|].
  destruct ev; simpl; now rewrite ?IH.
Qed.

Lemma sleeps_wire t : sleeps (wire t) = sleeps t.
Proof.
  unfold wire. induction t as [|ev t IH]; simpl; [reflexivity|].
  destruct ev; simpl; now rewrite ?IH.
Qed.

(** ** One attempt *)

(** Case analysis on whatever the goal or a hypothesis branches on. *)
Ltac branch :=
  match goal with
  | H : context [match ?x with _ => _ end] |- _ =>
      destruct x eqn:?; simpl in *; try discriminate
  | |- context [match ?x with _ => _ end] =>
      destruct x eqn:?; simpl in *; try discriminate
  end.

Ltac run :=
  unfold trace, outcome, lift, await, raise, ret, print, emit in *;
  repeat (rewrite ?fst_bind, ?snd_bind, ?fst_catch, ?snd_catch in *;
          simpl in *;
          try branch).

(** What the [except] clauses do with an exception. *)
Lemma on_error_returns k e e' :
  outcome (on_error k e) = inr e' ->
  is_VSCodeLLMError e' = true /\
  (kind_of e' = Some ConnectionError \/ kind_of e' = Some ContentFiltered \/
   kind_of e' = Some EmptyResponse \/ kind_of e' = Some ProtocolError).
Proof.
  destruct e; simpl; intros H; inversion H; subst; simpl; auto 6.
Qed.

Lemma on_error_raises k e e' :
  outcome (on_error k e) = inl e' ->
  e' = e /\ is_VSCodeLLMError e = false /\ kind_of e = None.
Proof.
  destruct e; simpl; intros H; inversion H; subst; simpl; auto.
Qed.

Lemma wire_on_error k e : wire (trace (on_error k e)) = [].
Proof. now destruct e. Qed.

Lemma wire_request w k : wire (trace (request w k)) = [Post k].
Proof. unfold request, read_response. run; reflexivity. Qed.

(** The [try] statement, clause by clause. *)
Lemma attempt_result_of_request w k :
  attempt_result_of w k =
  match outcome (request w k) with
  | inr c => Succeeded c
  | inl e => match outcome (on_error k e) with
             | inr e' => Failed e'
             | inl e' => Escaped e'
             end
  end.
Proof.
  unfold attempt_result_of, attempt_once, outcome, ret.
  rewrite snd_catch, snd_bind.
  destruct (snd (request w k)) as [e|c]; simpl; [|reflexivity].
  rewrite snd_bind. now destruct (snd (on_error k e)).
Qed.

Lemma trace_attempt_once w k :
  trace (attempt_once w k) =
  trace (request w k) ++
  match outcome (request w k) with
  | inr _ => []
  | inl e => trace (on_error k e)
  end.
Proof.
  unfold attempt_once, trace, outcome, ret.
  rewrite fst_catch, fst_bind, snd_bind. rewrite <- app_assoc. f_equal.
  destruct (snd (request w k)) as [e|c]; simpl; [|reflexivity].
  rewrite fst_bind. destruct (snd (on_error k e)); simpl;
    now rewrite app_nil_r.
Qed.

(** An attempt sends exactly one request and never sleeps. *)
Lemma wire_attempt_once w k : wire (trace (attempt_once w k)) = [Post k].
Proof.
  rewrite trace_attempt_once, wire_app, wire_request.
  destruct (outcome (request w k)); [now rewrite wire_on_error|reflexivity].
Qed.

(** A recorded error belongs to the script's hierarchy and stands for one
    of the four kinds of backend error. *)
Lemma failed_kind w k e :
  attempt_result_of w k = Failed e ->
  is_VSCodeLLMError e = true /\
  (kind_of e = Some ConnectionError \/ kind_of e = Some ContentFiltered \/
   kind_of e = Some EmptyResponse \/ kind_of e = Some ProtocolError).
Proof.
  rewrite attempt_result_of_request.
  destruct (outcome (request w k)) as [e0|c]; [|discriminate].
  destruct (outcome (on_error k e0)) eqn:E; [discriminate|].
  intros [= <-]. eapply on_error_returns, E.
Qed.

(** An exception that leaves the [try] statement is outside the hierarchy. *)
Lemma escaped_kind w k e :
  attempt_result_of w k = Escaped e ->
  is_VSCodeLLMError e = false /\ kind_of e = None.
Proof.
  rewrite attempt_result_of_request.
  destruct (outcome (request w k)) as [e0|c]; [|discriminate].
  destruct (outcome (on_error k e0)) eqn:E; [|discriminate].
  intros [= <-]. apply on_error_raises in E as (-> & ? & ?). auto.
Qed.

(** A request that returns has printed the success line of the primary
    backend, and that is the last such line it printed. *)
Lemma request_returns_source w k c :
  outcome (request w k) = inr c ->
  source_of (trace (request w k)) = Some PRIMARY.
Proof.
  unfold request, read_response. intros H. run; reflexivity.
Qed.

Lemma succeeded_source w k c :
  attempt_result_of w k = Succeeded c ->
  source_of (trace (attempt_once w k)) = Some PRIMARY.
Proof.
  rewrite attempt_result_of_request, trace_attempt_once.
  destruct (outcome (request w k)) as [e|c'] eqn:E.
  - now destruct (outcome (on_error k e)).
  - intros _. rewrite app_nil_r. eapply request_returns_source, E.
Qed.

(** ** The retry loop *)

Lemma outcome_backoff w k : outcome (backoff w k) = inr tt.
Proof. unfold backoff. now destruct (k <? VSCODE_MAX_RETRIES w - 1)%nat. Qed.

Lemma wire_backoff w k :
  wire (trace (backoff w k)) =
  if (k <? VSCODE_MAX_RETRIES w - 1)%nat then [Sleep (wait_time k)] else [].
Proof. unfold backoff. now destruct (k <? VSCODE_MAX_RETRIES w - 1)%nat. Qed.

Lemma schedule_cons w k rest :
  schedule w (k :: rest) =
  Post k :: wire (trace (backoff w k)) ++ schedule w rest.
Proof. now rewrite wire_backoff. Qed.

Lemma schedule_app w l1 l2 :
  schedule w (l1 ++ l2) = schedule w l1 ++ schedule w l2.
Proof. apply flat_map_app. Qed.

(** One turn of the loop. *)
Lemma retry_loop_cons w k rest last_error :
  retry_loop w (k :: rest) last_error =
  bind (attempt_once w k)
       (fun r => match r with
                 | inl c => ret c
                 | inr e => bind (backoff w k)
                                 (fun _ => retry_loop w rest (Some e))
                 end).
Proof. reflexivity. Qed.

Lemma outcome_attempt_once w k :
  outcome (attempt_once w k) =
  match attempt_result_of w k with
  | Succeeded c => inr (inl c)
  | Failed e => inr (inr e)
  | Escaped e => inl e
  end.
Proof.
  unfold attempt_result_of.
  now destruct (outcome (attempt_once w k)) as [e|[c|e]].
Qed.

(** The loop after a failed attempt. *)
Lemma retry_loop_failed_step w k rest last_error e :
  attempt_result_of w k = Failed e ->
  trace (retry_loop w (k :: rest) last_error) =
    trace (attempt_once w k) ++ trace (backoff w k) ++
    trace (retry_loop w rest (Some e)) /\
  outcome (retry_loop w (k :: rest) last_error) =
    outcome (retry_loop w rest (Some e)).
Proof.
  intros H. rewrite retry_loop_cons. unfold trace, outcome.
  rewrite fst_bind, snd_bind.
  pose proof (outcome_attempt_once w k) as O. rewrite H in O.
  unfold outcome in O. rewrite O.
  rewrite fst_bind, snd_bind.
  pose proof (outcome_backoff w k) as B. unfold outcome in B. now rewrite B.
Qed.

(** The loop when its first attempt ends it. *)
Lemma retry_loop_stop_step w k rest last_error o :
  stops_with (attempt_result_of w k) = Some o ->
  trace (retry_loop w (k :: rest) last_error) = trace (attempt_once w k) /\
  outcome (retry_loop w (k :: rest) last_error) = o.
Proof.
  intros H. rewrite retry_loop_cons. unfold trace, outcome.
  rewrite fst_bind, snd_bind.
  pose proof (outcome_attempt_once w k) as O. unfold outcome in O. rewrite O.
  destruct (attempt_result_of w k); simpl in *; inversion H; subst;
    now rewrite app_nil_r.
Qed.

(** When the attempts [s], ..., [s + k - 1] fail and attempt [s + k] does
    not, the loop ends with attempt [s + k]: what it sent and slept before
    is the schedule of [k] failed attempts. *)
Lemma retry_loop_stops w k : forall s n last_error o,
  (forall j, s <= j < s + k -> exists e, attempt_result_of w j = Failed e) ->
  k < n ->
  stops_with (attempt_result_of w (s + k)) = Some o ->
  outcome (retry_loop w (seq s n) last_error) = o /\
  exists before,
    trace (retry_loop w (seq s n) last_error) =
      before ++ trace (attempt_once w (s + k)) /\
    wire before = schedule w (seq s k).
Proof.
  induction k as [|k IH]; intros s n last_error o Hfail Hlt Hstop.
  - destruct n as [|n]; [lia|]. rewrite Nat.add_0_r in Hstop. simpl seq.
    destruct (retry_loop_stop_step w s (seq (S s) n) last_error o Hstop)
      as [Ht Ho].
    split; [exact Ho|]. exists []. rewrite Nat.add_0_r. now rewrite Ht.
  - destruct n as [|n]; [lia|]. simpl seq.
    destruct (Hfail s ltac:(lia)) as [e He].
    destruct (retry_loop_failed_step w s (seq (S s) n) last_error e He)
      as [Ht Ho].
    destruct (IH (S s) n (Some e) o) as [Ho' (before & Ht' & Hw)].
    + intros j Hj. apply Hfail. lia.
    + lia.
    + now replace (S s + k) with (s + S k) by lia.
    + split; [now rewrite Ho|].
      exists (trace (attempt_once w s) ++ trace (backoff w s) ++ before).
      split.
      * rewrite Ht, Ht'. replace (S s + k) with (s + S k) by lia.
        now rewrite <- !app_assoc.
      * rewrite !wire_app, wire_attempt_once, Hw.
        change (seq s (S k)) with (s :: seq (S s) k).
        now rewrite schedule_cons.
Qed.

(** When every attempt fails, the loop follows the schedule to its end and
    raises the error recorded last. *)
Lemma retry_loop_exhausted w n : forall s last_error,
  (forall j, s <= j < s + n -> exists e, attempt_result_of w j = Failed e) ->
  wire (trace (retry_loop w (seq s n) last_error)) = schedule w (seq s n) /\
  exists e,
    outcome (retry_loop w (seq s n) last_error) = inl e /\
    match n with
    | 0 => e = exhausted last_error
    | S m => attempt_result_of w (s + m) = Failed e
    end.
Proof.
  induction n as [|n IH]; intros s last_error Hfail.
  - split; [reflexivity|]. now exists (exhausted last_error).
  - simpl seq. destruct (Hfail s ltac:(lia)) as [e0 He0].
    destruct (retry_loop_failed_step w s (seq (S s) n) last_error e0 He0)
      as [Ht Ho].
    destruct (IH (S s) (Some e0)) as [Hw (e & He & Hlast)].
    { intros j Hj. apply Hfail. lia. }
    split.
    + rewrite Ht, !wire_app, wire_attempt_once, Hw.
      now rewrite schedule_cons.
    + exists e. split; [now rewrite Ho|].
      destruct n as [|m].
      * simpl in Hlast. subst e. now rewrite Nat.add_0_r.
      * now replace (s + S m) with (S s + m) by lia.
Qed.

(** ** The three coroutines *)

Lemma trace_call_vscode_llm w prompt :
  trace (call_vscode_llm w prompt) =
  Print (LCalling (endpoint w)) :: Print (LPrompt (shown_prompt prompt)) ::
  trace (retry_loop w (seq 0 (VSCODE_MAX_RETRIES w)) None).
Proof.
  unfold call_vscode_llm, trace. now rewrite fst_bind, fst_bind.
Qed.

Lemma outcome_call_vscode_llm w prompt :
  outcome (call_vscode_llm w prompt) =
  outcome (retry_loop w (seq 0 (VSCODE_MAX_RETRIES w)) None).
Proof.
  unfold call_vscode_llm, outcome. now rewrite snd_bind, snd_bind.
Qed.

Lemma wire_call_vscode_llm w prompt :
  wire (trace (call_vscode_llm w prompt)) =
  wire (trace (retry_loop w (seq 0 (VSCODE_MAX_RETRIES w)) None)).
Proof. now rewrite trace_call_vscode_llm. Qed.

(** The [try] statement of [call_llm_with_fallback]. *)
Lemma trace_call_llm_with_fallback w prompt :
  trace (call_llm_with_fallback w prompt) =
  trace (call_vscode_llm w prompt) ++
  match outcome (call_vscode_llm w prompt) with
  | inr _ => []
  | inl e => if is_VSCodeLLMError e then trace (fallback_or_raise w e) else []
  end.
Proof.
  unfold call_llm_with_fallback, trace, outcome. rewrite fst_catch.
  destruct (snd (call_vscode_llm w prompt)) as [e|c]; [|reflexivity].
  now destruct (is_VSCodeLLMError e).
Qed.

Lemma outcome_call_llm_with_fallback w prompt :
  outcome (call_llm_with_fallback w prompt) =
  match outcome (call_vscode_llm w prompt) with
  | inr c => inr c
  | inl e => if is_VSCodeLLMError e then outcome (fallback_or_raise w e)
             else inl e
  end.
Proof.
  unfold call_llm_with_fallback, trace, outcome. rewrite snd_catch.
  destruct (snd (call_vscode_llm w prompt)) as [e|c]; [|reflexivity].
  now destruct (is_VSCodeLLMError e).
Qed.

(** The [except] clause when fallback is switched off or has no key: the
    error is raised again and nothing is sent. *)
Lemma fallback_or_raise_reraises w e :
  VSCODE_LLM_FALLBACK_ENABLED w = false \/ fallback_available w = false ->
  outcome (fallback_or_raise w e) = inl e /\
  wire (trace (fallback_or_raise w e)) = [].
Proof.
  unfold fallback_or_raise, fallback_available.
  destruct (VSCODE_LLM_FALLBACK_ENABLED w);
    destruct (getenv_truthy (env_ANTHROPIC_API_KEY w));
    intros [H|H]; try discriminate; now split.
Qed.

(** The [except] clause when fallback is switched on and has a key: one
    request to the secondary backend, whose answer or exception is the
    result. *)
Lemma fallback_or_raise_falls_back w e :
  VSCODE_LLM_FALLBACK_ENABLED w = true -> fallback_available w = true ->
  wire (trace (fallback_or_raise w e)) = [AnthropicCreate] /\
  match anthropic w with
  | AnthropicMessage m =>
      outcome (fallback_or_raise w e) = inr (PStr (join_text (content m))) /\
      source_of (trace (fallback_or_raise w e)) = Some FALLBACK
  | AnthropicRaises cls msg =>
      outcome (fallback_or_raise w e) = inl (OtherError cls msg)
  end.
Proof.
  unfold fallback_or_raise, call_anthropic_fallback, fallback_available.
  intros -> ->. simpl. destruct (anthropic w); now repeat split.
Qed.

(** ** How a response is classified *)

(** Runs the binds whose first computation is known. *)
Ltac exec :=
  unfold outcome, trace, lift in *;
  repeat (progress (rewrite ?snd_bind, ?fst_bind; simpl)).

Lemma outcome_request w k :
  outcome (request w k) =
  match primary w k with
  | PostRaises e => inl (raised e)
  | PostResponse resp => outcome (read_response k resp)
  end.
Proof.
  unfold request, outcome. rewrite snd_bind. simpl.
  now destruct (primary w k).
Qed.

(** A transport error is recorded as a connection error. *)
Lemma transport_error_fails w k m :
  primary w k = PostRaises (ExtClientError m) ->
  attempt_result_of w k =
  Failed (VSCodeLLMConnectionError ("Connection error: " ++ m)).
Proof.
  intros H. now rewrite attempt_result_of_request, outcome_request, H.
Qed.

(** A status other than 200: the body decides between the two classes. *)
Lemma error_status_fails w k resp body :
  primary w k = PostResponse resp ->
  status resp <> 200%Z ->
  text resp = inr body ->
  attempt_result_of w k =
  Failed (if str_in "filtered" (lower body)
          then ContentFilteredError ("Content filtered: " ++ body)
          else VSCodeLLMError ("API error (" ++ str_of_Z (status resp)
                                ++ "): " ++ body)).
Proof.
  intros H Hs Ht.
  rewrite attempt_result_of_request, outcome_request, H.
  unfold read_response. apply Z.eqb_neq in Hs. rewrite Hs, Ht. simpl.
  unfold outcome. rewrite snd_bind. simpl.
  now destruct (str_in "filtered" (lower body)).
Qed.

(** Status 200 and a document without choices. *)
Lemma no_choices_fails w k resp entries :
  primary w k = PostResponse resp ->
  status resp = 200%Z ->
  json resp = inr (PDict entries) ->
  match dict_lookup entries "choices" with
  | Some choices => truthy choices = false
  | None => True
  end ->
  attempt_result_of w k = Failed (EmptyResponseError "No choices in response").
Proof.
  intros H Hs Hj Hc.
  rewrite attempt_result_of_request, outcome_request, H.
  unfold read_response. rewrite Hs, Hj. simpl.
  exec. destruct (dict_lookup entries "choices") as [choices|]; simpl.
  - rewrite Hc. now exec.
  - reflexivity.
Qed.

(** The document has the shape [first_choice_content] reads. *)
Lemma first_choice_content_shape data c :
  first_choice_content data = Some c ->
  exists entries choice others msg,
    data = PDict entries /\
    dict_lookup entries "choices" = Some (PList (PDict choice :: others)) /\
    dict_lookup choice "message" = Some (PDict msg) /\
    dict_lookup msg "content" = Some c.
Proof.
  unfold first_choice_content. intros H.
  destruct data as [| | | | |?|entries]; try discriminate.
  destruct (dict_lookup entries "choices")
    as [[| | | | |[|[| | | | |?|choice] others]|?]|] eqn:Ec;
    try discriminate.
  destruct (dict_lookup choice "message") as [[| | | | |?|msg]|] eqn:Em;
    try discriminate.
  now exists entries, choice, others, msg.
Qed.

(** Status 200 and a first choice whose content is empty. *)
Lemma empty_content_fails w k resp data c :
  primary w k = PostResponse resp ->
  status resp = 200%Z ->
  json resp = inr data ->
  first_choice_content data = Some c ->
  truthy c = false ->
  attempt_result_of w k =
  Failed (EmptyResponseError "Empty content in response").
Proof.
  intros H Hs Hj Hc Ht.
  apply first_choice_content_shape in Hc
    as (entries & choice & others & msg & -> & Ec & Em & Hc).
  rewrite attempt_result_of_request, outcome_request, H.
  unfold read_response. rewrite Hs, Hj. simpl.
  exec. rewrite Ec. exec. rewrite Em. exec. rewrite Hc. exec.
  rewrite Ht. now exec.
Qed.

(** Status 200 and a first choice whose content is not empty: the attempt
    returns the content. *)
Lemma content_succeeds w k resp data c :
  primary w k = PostResponse resp ->
  status resp = 200%Z ->
  json resp = inr data ->
  first_choice_content data = Some c ->
  truthy c = true ->
  usage_well_formed data = true ->
  attempt_result_of w k = Succeeded c.
Proof.
  intros H Hs Hj Hc Ht Hu.
  apply first_choice_content_shape in Hc
    as (entries & choice & others & msg & -> & Ec & Em & Hc).
  rewrite attempt_result_of_request, outcome_request, H.
  unfold read_response. rewrite Hs, Hj. simpl.
  exec. rewrite Ec. exec. rewrite Em. exec. rewrite Hc. exec.
  rewrite Ht. exec.
  unfold usage_well_formed in Hu.
  destruct (dict_lookup entries "usage") as [u|]; exec; [|reflexivity].
  destruct u as [| | | | | |usage]; simpl in Hu; exec;
    try (apply negb_true_iff in Hu; simpl in Hu; rewrite Hu; now exec);
    try reflexivity.
  now destruct usage; exec.
Qed.

(** With a [usage] that is neither empty nor an object, [usage.get] of line
    117 raises after the success line was printed. *)
Example usage_not_an_object_escapes :
  attempt_result_of
    (shipped (PostResponse
                (ok_response
                   (PDict [("choices",
                            PList [PDict [("message",
                                           PDict [("content", PStr "4")])]]);
                           ("usage", PStr "n/a")])))
             (AnthropicMessage hello)) 0
  = Escaped AttributeError.
Proof. reflexivity. Qed.

(** Status 200 and a first choice without a message: the lookup raises a
    [KeyError], which no clause matches. *)
Lemma missing_message_escapes w k resp entries choice others :
  primary w k = PostResponse resp ->
  status resp = 200%Z ->
  json resp = inr (PDict entries) ->
  dict_lookup entries "choices" = Some (PList (PDict choice :: others)) ->
  dict_lookup choice "message" = None ->
  attempt_result_of w k = Escaped (KeyError (PStr "message")).
Proof.
  intros H Hs Hj Ec Em.
  rewrite attempt_result_of_request, outcome_request, H.
  unfold read_response. rewrite Hs, Hj. simpl.
  exec. rewrite Ec. exec. rewrite Em. now exec.
Qed.

(** The same for a message without content. *)
Lemma missing_content_escapes w k resp entries choice others msg :
  primary w k = PostResponse resp ->
  status resp = 200%Z ->
  json resp = inr (PDict entries) ->
  dict_lookup entries "choices" = Some (PList (PDict choice :: others)) ->
  dict_lookup choice "message" = Some (PDict msg) ->
  dict_lookup msg "content" = None ->
  attempt_result_of w k = Escaped (KeyError (PStr "content")).
Proof.
  intros H Hs Hj Ec Em Hc.
  rewrite attempt_result_of_request, outcome_request, H.
  unfold read_response. rewrite Hs, Hj. simpl.
  exec. rewrite Ec. exec. rewrite Em. exec. rewrite Hc. now exec.
Qed.

(** ** Substrings up to case *)

Lemma prefix_iff (n h : string) :
  prefix n h = true <-> exists b, h = (n ++ b)%string.
Proof.
  revert h. induction n as [|c n IH]; intros h.
  - split; [intros _; now exists h | intros _; now destruct h].
  - destruct h as [|c' h]; simpl.
    + split; [discriminate | intros [b Hb]; discriminate].
    + destruct (ascii_dec c c') as [->|Hne].
      * rewrite IH. split; intros [b Hb]; exists b; congruence.
      * split; [discriminate | intros [b Hb]; congruence].
Qed.

Lemma str_in_nil (n : string) : str_in n "" = prefix n "".
Proof. unfold str_in. now destruct (prefix n ""). Qed.

Lemma str_in_cons (n : string) c (h : string) :
  str_in n (String c h) = if prefix n (String c h) then true else str_in n h.
Proof. reflexivity. Qed.

Lemma str_in_iff (n h : string) :
  str_in n h = true <-> exists a b, h = (a ++ n ++ b)%string.
Proof.
  induction h as [|c h IH].
  - rewrite str_in_nil, prefix_iff. split.
    + intros [b Hb]. now exists "", b.
    + intros (a & b & Hab). destruct a; [|discriminate]. now exists b.
  - rewrite str_in_cons. destruct (prefix n (String c h)) eqn:E.
    + apply prefix_iff in E as [b Hb]. split; [|intros _; reflexivity].
      intros _. now exists "", b.
    + rewrite IH. split.
      * intros (a & b & ->). now exists (String c a), b.
      * intros (a & b & Hab). destruct a as [|c' a].
        -- simpl in Hab.
           assert (prefix n (String c h) = true)
             by (apply prefix_iff; now exists b).
           congruence.
        -- injection Hab as _ ->. now exists a, b.
Qed.

Lemma lower_app (a b : string) :
  lower (a ++ b) = (lower a ++ lower b)%string.
Proof. induction a as [|c a IH]; simpl; [reflexivity | now rewrite IH]. Qed.

Lemma lower_split (a : string) : forall s b : string,
  lower s = (a ++ b)%string ->
  exists s1 s2, s = (s1 ++ s2)%string /\ lower s1 = a /\ lower s2 = b.
Proof.
  induction a as [|c a IH]; intros s b H.
  - now exists "", s.
  - destruct s as [|c' s]; [discriminate|]. simpl in H.
    injection H as Hc Hs. destruct (IH s b Hs) as (s1 & s2 & -> & <- & <-).
    exists (String c' s1), s2. simpl. now rewrite Hc.
Qed.

(** The test of line 100 is a search up to case. *)
Lemma str_in_lower_iff (needle body : string) :
  str_in (lower needle) (lower body) = true <-> contains_ci needle body.
Proof.
  rewrite str_in_iff. unfold contains_ci. split.
  - intros (a & b & H).
    apply lower_split in H as (pre & rest & -> & <- & H).
    apply lower_split in H as (mid & post & -> & H & <-).
    now exists pre, mid, post.
  - intros (pre & mid & post & -> & H).
    exists (lower pre), (lower post). now rewrite !lower_app, H.
Qed.

(** ** The schedule of a failing run *)

Lemma posts_schedule w l : posts (schedule w l) = List.length l.
Proof.
  induction l as [|k l IH]; [reflexivity|].
  rewrite schedule_cons. change (Post k :: ?t) with ([Post k] ++ t).
  rewrite !posts_app, IH, posts_wire. unfold backoff.
  now destruct (k <? VSCODE_MAX_RETRIES w - 1)%nat.
Qed.

Lemma anthropic_calls_schedule w l : anthropic_calls (schedule w l) = 0.
Proof.
  induction l as [|k l IH]; [reflexivity|].
  rewrite schedule_cons. change (Post k :: ?t) with ([Post k] ++ t).
  rewrite !anthropic_calls_app, IH, anthropic_calls_wire. unfold backoff.
  now destruct (k <? VSCODE_MAX_RETRIES w - 1)%nat.
Qed.

(** Before the last attempt of the budget, every failed attempt is followed
    by its delay. *)
Lemma sleeps_schedule_inner w n : forall s,
  s + n <= VSCODE_MAX_RETRIES w - 1 ->
  sleeps (schedule w (seq s n)) = map wait_time (seq s n).
Proof.
  induction n as [|n IH]; intros s H; [reflexivity|].
  simpl seq. simpl schedule.
  destruct (Nat.ltb_spec s (VSCODE_MAX_RETRIES w - 1)); [|lia].
  simpl. f_equal. apply IH. lia.
Qed.

(** Over the whole budget, the delays are those of all attempts but the
    last. *)
Lemma sleeps_schedule w :
  sleeps (schedule w (seq 0 (VSCODE_MAX_RETRIES w))) =
  map wait_time (seq 0 (VSCODE_MAX_RETRIES w - 1)).
Proof.
  destruct (VSCODE_MAX_RETRIES w) as [|m] eqn:E; [reflexivity|].
  rewrite seq_S, schedule_app, sleeps_app, <- E.
  rewrite sleeps_schedule_inner by lia.
  replace (VSCODE_MAX_RETRIES w - 1) with m by lia.
  simpl. rewrite E.
  destruct (Nat.ltb_spec m (S m - 1)); [lia|]. simpl. now rewrite app_nil_r.
Qed.

(** ** Whole runs *)

(** The run ends with attempt [k] when that attempt returns, or raises an
    exception no clause matches: nothing is sent or slept after its
    request. *)
Lemma pipeline_stops w prompt k o :
  k < VSCODE_MAX_RETRIES w ->
  fails_before w k ->
  stops_with (attempt_result_of w k) = Some o ->
  outcome (call_llm_with_fallback w prompt) = o /\
  exists before,
    trace (call_llm_with_fallback w prompt) =
      before ++ trace (attempt_once w k) /\
    wire before = schedule w (seq 0 k).
Proof.
  intros Hk Hfail Hstop.
  destruct (retry_loop_stops w k 0 (VSCODE_MAX_RETRIES w) None o)
    as [Ho (before & Ht & Hw)]; auto.
  { intros j Hj. apply Hfail. lia. }
  simpl in Ht.
  assert (Hnot : match o with
                 | inl e => is_VSCodeLLMError e = false
                 | inr _ => True
                 end).
  { destruct (attempt_result_of w k) eqn:E; simpl in Hstop;
      inversion Hstop; subst; [exact I|].
    now apply escaped_kind in E. }
  rewrite outcome_call_llm_with_fallback, trace_call_llm_with_fallback.
  rewrite outcome_call_vscode_llm, trace_call_vscode_llm, Ho, Ht.
  split.
  - destruct o as [e|c]; [now rewrite Hnot | reflexivity].
  - exists (Print (LCalling (endpoint w))
              :: Print (LPrompt (shown_prompt prompt)) :: before).
    split; [|exact Hw].
    destruct o as [e|c]; [rewrite Hnot|]; now rewrite app_nil_r.
Qed.

(** The run after the budget is exhausted: the loop has followed the whole
    schedule, and the [except] clause of [call_llm_with_fallback] takes
    over with the error recorded last. *)
Lemma pipeline_exhausted w prompt :
  primary_exhausted w ->
  exists e,
    outcome (call_vscode_llm w prompt) = inl e /\
    is_VSCodeLLMError e = true /\
    match VSCODE_MAX_RETRIES w with
    | 0 => e = VSCodeLLMError "All retries failed"
    | S m => attempt_result_of w m = Failed e
    end /\
    wire (trace (call_vscode_llm w prompt)) =
      schedule w (seq 0 (VSCODE_MAX_RETRIES w)) /\
    trace (call_llm_with_fallback w prompt) =
      trace (call_vscode_llm w prompt) ++ trace (fallback_or_raise w e) /\
    outcome (call_llm_with_fallback w prompt) =
      outcome (fallback_or_raise w e).
Proof.
  intros Hfail.
  destruct (retry_loop_exhausted w (VSCODE_MAX_RETRIES w) 0 None)
    as [Hw (e & He & Hlast)].
  { intros j Hj. apply Hfail. lia. }
  assert (Hin : is_VSCodeLLMError e = true).
  { destruct (VSCODE_MAX_RETRIES w); [now subst e|].
    now apply failed_kind in Hlast. }
  exists e.
  rewrite outcome_call_llm_with_fallback, trace_call_llm_with_fallback.
  rewrite wire_call_vscode_llm, outcome_call_vscode_llm, He, Hin.
  repeat split; auto.
Qed.

(** The [except] clause of [call_llm_with_fallback] starts by printing that
    the primary backend failed, and sends nothing to the primary backend. *)
Lemma trace_fallback_or_raise w e :
  exists rest,
    trace (fallback_or_raise w e) =
      Print (LPrimaryFailed (VSCODE_MAX_RETRIES w) (str_of_exn e)) :: rest /\
    posts rest = 0.
Proof.
  unfold fallback_or_raise, call_anthropic_fallback.
  destruct (VSCODE_LLM_FALLBACK_ENABLED w);
    destruct (getenv_truthy (env_ANTHROPIC_API_KEY w)); simpl;
    try destruct (anthropic w); eexists; split; reflexivity.
Qed.

(** The [except] clause of [call_llm_with_fallback] never sleeps. *)
Lemma sleeps_fallback_or_raise w e : sleeps (trace (fallback_or_raise w e)) = [].
Proof.
  unfold fallback_or_raise, call_anthropic_fallback.
  destruct (VSCODE_LLM_FALLBACK_ENABLED w);
    destruct (getenv_truthy (env_ANTHROPIC_API_KEY w)); simpl;
    try destruct (anthropic w); reflexivity.
Qed.

(** Where attempt [i] sits in the schedule when it is not the last one. *)
Lemma schedule_inner_attempt w i :
  i < VSCODE_MAX_RETRIES w - 1 ->
  exists after,
    schedule w (seq 0 (VSCODE_MAX_RETRIES w)) =
    schedule w (seq 0 i) ++
    Post i :: Sleep (wait_time i) :: Post (S i) :: after.
Proof.
  intros Hi.
  assert (E : seq 0 (VSCODE_MAX_RETRIES w) =
              seq 0 i ++ i :: S i ::
              seq (S (S i)) (VSCODE_MAX_RETRIES w - i - 2)).
  { transitivity (seq 0 (i + S (S (VSCODE_MAX_RETRIES w - i - 2)))).
    - f_equal. lia.
    - now rewrite seq_app. }
  rewrite E, schedule_app. simpl schedule.
  destruct (Nat.ltb_spec i (VSCODE_MAX_RETRIES w - 1)); [|lia].
  simpl. eexists. reflexivity.
Qed.

(** The schedule ends with the request of the last attempt. *)
Lemma schedule_last_attempt w m :
  VSCODE_MAX_RETRIES w = S m ->
  schedule w (seq 0 (VSCODE_MAX_RETRIES w)) = schedule w (seq 0 m) ++ [Post m].
Proof.
  intros E. rewrite E at 1. rewrite seq_S, schedule_app. simpl. rewrite E.
  now destruct (Nat.ltb_spec m (S m - 1)); [lia|].
Qed.

(** ** How a run can end *)

(** Either every attempt up to [n] fails with a recorded error, or a first
    attempt ends the loop. *)
Lemma loop_cases w n :
  fails_before w n \/
  exists k o, k < n /\ fails_before w k /\
              stops_with (attempt_result_of w k) = Some o.
Proof.
  induction n as [|n [IH | (k & o & Hk & Hf & Ho)]].
  - left. intros j Hj. lia.
  - destruct (attempt_result_of w n) as [c|e|e] eqn:E.
    + right. exists n, (inr c). rewrite E. auto.
    + left. intros j Hj. destruct (Nat.eq_dec j n) as [->|Hne].
      * now exists e.
      * apply IH. lia.
    + right. exists n, (inl e). rewrite E. auto.
  - right. exists k, o. auto.
Qed.

(** A run returns exactly when the primary backend succeeds within the
    budget, or the budget is exhausted, fallback is switched on and has its
    key, and the secondary backend answers. *)
Lemma returns_iff w prompt v :
  outcome (call_llm_with_fallback w prompt) = inr v <->
  primary_succeeds w v \/
  (primary_exhausted w /\
   VSCODE_LLM_FALLBACK_ENABLED w = true /\ fallback_available w = true /\
   exists m, anthropic w = AnthropicMessage m /\
             v = PStr (join_text (content m))).
Proof.
  split.
  - intros Hret.
    destruct (loop_cases w (VSCODE_MAX_RETRIES w))
      as [Hex | (k & o & Hk & Hf & Ho)].
    + right. split; [exact Hex|].
      destruct (pipeline_exhausted w prompt Hex) as (e & _ & _ & _ & _ & _ & Hout).
      rewrite Hout in Hret.
      destruct (VSCODE_LLM_FALLBACK_ENABLED w) eqn:Hen.
      * destruct (fallback_available w) eqn:Hav.
        -- destruct (fallback_or_raise_falls_back w e Hen Hav) as [_ Hres].
           destruct (anthropic w) as [cls msg|m]; [congruence|].
           destruct Hres as [Hres _].
           split; [reflexivity|]. split; [reflexivity|].
           exists m. split; congruence.
        -- destruct (fallback_or_raise_reraises w e (or_intror Hav)).
           congruence.
      * destruct (fallback_or_raise_reraises w e (or_introl Hen)).
        congruence.
    + left. destruct (pipeline_stops w prompt k o Hk Hf Ho) as [Hout _].
      exists k. split; [exact Hk|]. split; [exact Hf|].
      destruct (attempt_result_of w k); simpl in Ho; congruence.
  - intros [(k & Hk & Hf & Hs) | (Hex & Hen & Hav & m & Hm & ->)].
    + apply (pipeline_stops w prompt k (inr v)); auto. now rewrite Hs.
    + destruct (pipeline_exhausted w prompt Hex) as (e & _ & _ & _ & _ & _ & Hout).
      destruct (fallback_or_raise_falls_back w e Hen Hav) as [_ Hres].
      rewrite Hm in Hres. rewrite Hout. apply Hres.
Qed.

(** A run that does not return ends with one exception: the error recorded
    for the last attempt, the exception of the secondary backend, or the
    exception that left the loop. *)
Lemma raises_cases w prompt e :
  1 <= VSCODE_MAX_RETRIES w ->
  outcome (call_llm_with_fallback w prompt) = inl e ->
  (primary_exhausted w /\
   (VSCODE_LLM_FALLBACK_ENABLED w = false \/ fallback_available w = false) /\
   attempt_result_of w (VSCODE_MAX_RETRIES w - 1) = Failed e) \/
  (primary_exhausted w /\
   VSCODE_LLM_FALLBACK_ENABLED w = true /\ fallback_available w = true /\
   exists cls msg, anthropic w = AnthropicRaises cls msg /\
                   e = OtherError cls msg) \/
  (exists k, k < VSCODE_MAX_RETRIES w /\ fails_before w k /\
             attempt_result_of w k = Escaped e).
Proof.
  intros HN Hraise.
  destruct (loop_cases w (VSCODE_MAX_RETRIES w))
    as [Hex | (k & o & Hk & Hf & Ho)].
  - destruct (pipeline_exhausted w prompt Hex)
      as (e' & _ & _ & Hlast & _ & _ & Hout).
    rewrite Hout in Hraise.
    assert (Hl : attempt_result_of w (VSCODE_MAX_RETRIES w - 1) = Failed e').
    { destruct (VSCODE_MAX_RETRIES w) as [|m]; [lia|].
      now replace (S m - 1) with m by lia. }
    destruct (VSCODE_LLM_FALLBACK_ENABLED w) eqn:Hen.
    + destruct (fallback_available w) eqn:Hav.
      * right. left.
        split; [exact Hex|]. split; [reflexivity|]. split; [reflexivity|].
        destruct (fallback_or_raise_falls_back w e' Hen Hav) as [_ Hres].
        destruct (anthropic w) as [cls msg|m']; [|destruct Hres; congruence].
        exists cls, msg. split; congruence.
      * left. destruct (fallback_or_raise_reraises w e' (or_intror Hav)).
        split; [exact Hex|]. split; [now right|]. congruence.
    + left. destruct (fallback_or_raise_reraises w e' (or_introl Hen)).
      split; [exact Hex|]. split; [now left|]. congruence.
  - right. right. exists k.
    destruct (pipeline_stops w prompt k o Hk Hf Ho) as [Hout _].
    split; [exact Hk|]. split; [exact Hf|].
    destruct (attempt_result_of w k); simpl in Ho; congruence.
Qed.

(* ================================================================== *)
(** * The claims *)

(** C1, at the input where the code departs from it. The script as shipped,
    with fallback switched on and its key set, receives an answer with
    status 200 whose message has tool calls and no ['content']. The run
    does not return, although the secondary backend would have answered;
    it ends with a [KeyError], which is no backend error: no attempt has
    recorded an error, one request has been sent and the secondary backend
    has not been called. *)
Example C1_key_error_ends_the_run :
  let w := shipped
             (PostResponse
                (ok_response
                   (PDict [("choices",
                            PList [PDict [("message",
                                           PDict [("role", PStr "assistant");
                                                  ("tool_calls", PList [])])]])])))
             (AnthropicMessage hello) in
  let run := call_llm_with_fallback w "What is 2 + 2?" in
  VSCODE_LLM_FALLBACK_ENABLED w = true /\
  fallback_available w = true /\
  outcome run = inl (KeyError (PStr "content")) /\
  is_VSCodeLLMError (KeyError (PStr "content")) = false /\
  kind_of (KeyError (PStr "content")) = None /\
  attempt_result_of w 0 = Escaped (KeyError (PStr "content")) /\
  posts (trace run) = 1 /\
  anthropic_calls (trace run) = 0.
Proof. repeat split. Qed.

(** C2, at the input where the code departs from it. The script as
    shipped (a budget of 3, fallback switched on, its key set) in front of
    a primary backend that never answers: every request would end in the
    [asyncio.TimeoutError] of the 120-second limit of line 96, a transport
    failure that is no [aiohttp.ClientError]. The first one matches no
    [except] clause: one request is sent, not three, nothing is slept, and
    the run ends with the timeout without trying the secondary backend. *)
Example C2_timeout_ends_after_one_request :
  let w := shipped (PostRaises (ExtOther "asyncio.TimeoutError" ""))
                   (AnthropicMessage hello) in
  let run := call_llm_with_fallback w "What is 2 + 2?" in
  VSCODE_MAX_RETRIES w = 3 /\
  VSCODE_LLM_FALLBACK_ENABLED w = true /\
  fallback_available w = true /\
  attempt_result_of w 0 = Escaped (OtherError "asyncio.TimeoutError" "") /\
  outcome run = inl (OtherError "asyncio.TimeoutError" "") /\
  posts (trace run) = 1 /\
  sleeps (trace run) = [] /\
  anthropic_calls (trace run) = 0.
Proof. repeat split. Qed.

(** The main path of C2. For every budget [N >= 1], when every attempt ends
    in an [aiohttp.ClientError] raised by the request, exactly [N]
    requests are sent to the primary backend, all of them before the
    [except] clause that decides on fallback starts; the error that clause
    receives is a connection error. *)
Theorem C2_transport_errors_use_the_whole_budget w prompt :
  1 <= VSCODE_MAX_RETRIES w ->
  (forall k, k < VSCODE_MAX_RETRIES w ->
             exists m, primary w k = PostRaises (ExtClientError m)) ->
  exists e rest,
    outcome (call_vscode_llm w prompt) = inl e /\
    kind_of e = Some ConnectionError /\
    posts (trace (call_vscode_llm w prompt)) = VSCODE_MAX_RETRIES w /\
    trace (call_llm_with_fallback w prompt) =
      trace (call_vscode_llm w prompt) ++
      Print (LPrimaryFailed (VSCODE_MAX_RETRIES w) (str_of_exn e)) :: rest /\
    posts rest = 0 /\
    posts (trace (call_llm_with_fallback w prompt)) = VSCODE_MAX_RETRIES w.
Proof.
  intros HN Herr.
  assert (Hex : primary_exhausted w).
  { intros j Hj. destruct (Herr j Hj) as [m Hm].
    eexists. apply transport_error_fails, Hm. }
  destruct (pipeline_exhausted w prompt Hex)
    as (e & He & _ & Hlast & Hw & Ht & _).
  destruct (trace_fallback_or_raise w e) as (rest & Hrest & Hposts).
  assert (Hp : posts (trace (call_vscode_llm w prompt)) = VSCODE_MAX_RETRIES w).
  { now rewrite <- posts_wire, Hw, posts_schedule, length_seq. }
  exists e, rest. repeat split; auto.
  - destruct (VSCODE_MAX_RETRIES w) as [|m] eqn:E; [lia|].
    destruct (Herr m ltac:(lia)) as [msg Hm].
    apply transport_error_fails in Hm. rewrite Hm in Hlast.
    now injection Hlast as <-.
  - now rewrite Ht, Hrest.
  - rewrite Ht, Hrest, posts_app, Hp.
    change (Print ?l :: rest) with ([Print l] ++ rest).
    rewrite posts_app, Hposts. simpl. lia.
Qed.

Lemma C2_witness :
  let w := shipped (PostRaises (ExtClientError "Cannot connect to host"))
                   (AnthropicMessage hello) in
  exists e rest,
    outcome (call_vscode_llm w "hi") = inl e /\
    kind_of e = Some ConnectionError /\
    posts (trace (call_vscode_llm w "hi")) = 3 /\
    trace (call_llm_with_fallback w "hi") =
      trace (call_vscode_llm w "hi") ++
      Print (LPrimaryFailed 3 (str_of_exn e)) :: rest /\
    posts rest = 0 /\
    posts (trace (call_llm_with_fallback w "hi")) = 3.
Proof.
  apply (C2_transport_errors_use_the_whole_budget
           (shipped (PostRaises (ExtClientError "Cannot connect to host"))
                    (AnthropicMessage hello)) "hi").
  - simpl. lia.
  - intros k _. eexists. reflexivity.
Defined.

(** C3, at the input where the code departs from it. The script as
    shipped receives, on its first attempt, status 200 with a first choice
    of content "4" and a [usage] that is a string. The content is read and
    the success line printed, then [usage.get] of line 117 raises an
    [AttributeError], which no [except] clause matches: the run returns
    nothing and ends with that exception, after one request and without
    the secondary backend. *)
Example C3_usage_string_ends_without_result :
  let data := PDict [("choices",
                      PList [PDict [("message",
                                     PDict [("content", PStr "4")])]]);
                     ("usage", PStr "n/a")] in
  let w := shipped (PostResponse (ok_response data)) (AnthropicMessage hello) in
  let run := call_llm_with_fallback w "What is 2 + 2?" in
  first_choice_content data = Some (PStr "4") /\
  truthy (PStr "4") = true /\
  In (Print (LPrimaryOk 1)) (trace run) /\
  outcome run = inl AttributeError /\
  posts (trace run) = 1 /\
  anthropic_calls (trace run) = 0.
Proof. repeat split. simpl. auto 10. Qed.

(** The main path of C3. When the primary backend answers attempt [k] of
    the budget (the earlier attempts having failed) with status 200, a
    [usage] that is absent, empty or an object, and a first choice whose
    content is not empty, the run returns that content, from the primary
    backend: the request of attempt [k] is the last thing sent or slept, the
    [k + 1]-th request in all, and the secondary backend is not called. *)
Theorem C3_primary_success_returns_immediately w prompt k resp data c :
  k < VSCODE_MAX_RETRIES w ->
  fails_before w k ->
  primary w k = PostResponse resp ->
  status resp = 200%Z ->
  json resp = inr data ->
  first_choice_content data = Some c ->
  truthy c = true ->
  usage_well_formed data = true ->
  let run := call_llm_with_fallback w prompt in
  outcome run = inr c /\
  source_of (trace run) = Some PRIMARY /\
  wire (trace run) = schedule w (seq 0 k) ++ [Post k] /\
  posts (trace run) = S k /\
  sleeps (trace run) = map wait_time (seq 0 k) /\
  anthropic_calls (trace run) = 0.
Proof.
  intros Hk Hfail Hp Hs Hj Hc Ht Hu run.
  assert (Hok : attempt_result_of w k = Succeeded c)
    by (eapply content_succeeds; eauto).
  destruct (pipeline_stops w prompt k (inr c) Hk Hfail)
    as [Ho (before & Htr & Hw)]; [now rewrite Hok|].
  assert (Hwire : wire (trace run) = schedule w (seq 0 k) ++ [Post k]).
  { unfold run. now rewrite Htr, wire_app, wire_attempt_once, Hw. }
  repeat split.
  - exact Ho.
  - unfold run. rewrite Htr, source_of_app.
    now rewrite (succeeded_source w k c Hok).
  - exact Hwire.
  - rewrite <- posts_wire, Hwire, posts_app, posts_schedule, length_seq.
    change (posts [Post k]) with 1. lia.
  - rewrite <- sleeps_wire, Hwire, sleeps_app.
    rewrite sleeps_schedule_inner by lia. simpl. now rewrite app_nil_r.
  - rewrite <- anthropic_calls_wire, Hwire, anthropic_calls_app.
    now rewrite anthropic_calls_schedule.
Qed.

Lemma C3_witness :
  let answer k := if (k =? 0)%nat
                  then PostRaises (ExtClientError "Cannot connect to host")
                  else PostResponse (ok_response (chat_completion (PStr "4"))) in
  let w := no_fallback 3 answer in
  let run := call_llm_with_fallback w "What is 2 + 2?" in
  outcome run = inr (PStr "4") /\
  source_of (trace run) = Some PRIMARY /\
  wire (trace run) = schedule w (seq 0 1) ++ [Post 1] /\
  posts (trace run) = 2 /\
  sleeps (trace run) = map wait_time (seq 0 1) /\
  anthropic_calls (trace run) = 0.
Proof.
  apply (C3_primary_success_returns_immediately
           (no_fallback 3
              (fun k => if (k =? 0)%nat
                        then PostRaises (ExtClientError "Cannot connect to host")
                        else PostResponse
                               (ok_response (chat_completion (PStr "4")))))
           "What is 2 + 2?" 1
           (ok_response (chat_completion (PStr "4")))
           (chat_completion (PStr "4")) (PStr "4")).
  - simpl. lia.
  - intros j Hj. assert (j = 0) as -> by lia. eexists. reflexivity.
  - reflexivity.
  - reflexivity.
  - reflexivity.
  - reflexivity.
  - reflexivity.
  - reflexivity.
Defined.

(** C4. In a run of the retry loop whose attempts all fail, the delays slept
    are [backoff_base_seconds ** (i + 1)] for [i = 0 .. N-2], in that order
    (2, 4, 8, ... seconds); the delay of attempt [i] is slept between the
    request of attempt [i] and the request of attempt [i + 1]; and the
    request of the last attempt is the last thing the loop does: no delay
    follows it, in the loop or in the rest of the run. *)
Theorem C4_backoff_between_attempts w prompt :
  primary_exhausted w ->
  let t := trace (call_vscode_llm w prompt) in
  let delay i := (backoff_base_seconds ^ (Z.of_nat i + 1))%Z in
  sleeps t = map delay (seq 0 (VSCODE_MAX_RETRIES w - 1)) /\
  (forall i, i < VSCODE_MAX_RETRIES w - 1 ->
     exists before after,
       wire t = before ++ Post i :: Sleep (delay i) :: Post (S i) :: after) /\
  (forall m, VSCODE_MAX_RETRIES w = S m ->
     exists before, wire t = before ++ [Post m]) /\
  sleeps (trace (call_llm_with_fallback w prompt)) = sleeps t.
Proof.
  intros Hex t delay.
  destruct (pipeline_exhausted w prompt Hex)
    as (e & _ & _ & _ & Hw & Ht & _).
  fold t in Hw, Ht.
  repeat split.
  - rewrite <- sleeps_wire, Hw. apply sleeps_schedule.
  - intros i Hi. destruct (schedule_inner_attempt w i Hi) as [after Ha].
    exists (schedule w (seq 0 i)), after. now rewrite Hw, Ha.
  - intros m Hm. exists (schedule w (seq 0 m)).
    now rewrite Hw, (schedule_last_attempt w m Hm).
  - now rewrite Ht, sleeps_app, sleeps_fallback_or_raise, app_nil_r.
Qed.

Lemma C4_witness :
  let w := shipped (PostResponse (error_response 503 "service unavailable"))
                   (AnthropicMessage hello) in
  let t := trace (call_vscode_llm w "hi") in
  let delay i := (backoff_base_seconds ^ (Z.of_nat i + 1))%Z in
  sleeps t = map delay (seq 0 2) /\
  (forall i, i < 2 ->
     exists before after,
       wire t = before ++ Post i :: Sleep (delay i) :: Post (S i) :: after) /\
  (forall m, 3 = S m -> exists before, wire t = before ++ [Post m]) /\
  sleeps (trace (call_llm_with_fallback w "hi")) = sleeps t.
Proof.
  apply (C4_backoff_between_attempts
           (shipped (PostResponse (error_response 503 "service unavailable"))
                    (AnthropicMessage hello)) "hi").
  intros j _. eexists. reflexivity.
Defined.

Example C4_delays_as_shipped :
  sleeps (trace (call_vscode_llm
                   (shipped (PostRaises (ExtClientError "refused"))
                            (AnthropicMessage hello)) "hi"))
  = [2; 4]%Z.
Proof. reflexivity. Qed.



Example C5_service_unavailable :
  attempt_result_of
    (shipped (PostResponse (error_response 503 "service unavailable"))
             (AnthropicMessage hello)) 2
  = Failed (VSCodeLLMError "API error (503): service unavailable").
Proof. reflexivity. Qed.

(** C6. When every attempt of the budget has failed and fallback is switched
    on and has its key, the run sends exactly one request to the secondary
    backend, after the [N] requests to the primary one. When that request is
    answered, the run returns the text of the answer, from the secondary
    backend; when it raises, the run ends with that very exception. *)
Theorem C6_one_fallback_request w prompt :
  primary_exhausted w ->
  VSCODE_LLM_FALLBACK_ENABLED w = true ->
  fallback_available w = true ->
  let run := call_llm_with_fallback w prompt in
  wire (trace run) =
    schedule w (seq 0 (VSCODE_MAX_RETRIES w)) ++ [AnthropicCreate] /\
  posts (trace run) = VSCODE_MAX_RETRIES w /\
  anthropic_calls (trace run) = 1 /\
  match anthropic w with
  | AnthropicMessage m =>
      outcome run = inr (PStr (join_text (content m))) /\
      source_of (trace run) = Some FALLBACK
  | AnthropicRaises cls msg =>
      outcome run = inl (OtherError cls msg)
  end.
Proof.
  intros Hex Hen Hav run.
  destruct (pipeline_exhausted w prompt Hex)
    as (e & _ & _ & _ & Hw & Ht & Ho).
  destruct (fallback_or_raise_falls_back w e Hen Hav) as [Hf Hres].
  assert (Hwire : wire (trace run) =
            schedule w (seq 0 (VSCODE_MAX_RETRIES w)) ++ [AnthropicCreate]).
  { unfold run. now rewrite Ht, wire_app, Hw, Hf. }
  repeat split.
  - exact Hwire.
  - rewrite <- posts_wire, Hwire, posts_app, posts_schedule, length_seq.
    change (posts [AnthropicCreate]) with 0. lia.
  - rewrite <- anthropic_calls_wire, Hwire, anthropic_calls_app.
    now rewrite anthropic_calls_schedule.
  - unfold run. rewrite Ho, Ht, source_of_app.
    destruct (anthropic w) as [cls msg|m]; [exact Hres|].
    destruct Hres as [-> ->]. now split.
Qed.

Lemma C6_witness :
  let w := shipped (PostResponse (error_response 503 "service unavailable"))
                   (AnthropicMessage hello) in
  let run := call_llm_with_fallback w "hi" in
  wire (trace run) = schedule w (seq 0 3) ++ [AnthropicCreate] /\
  posts (trace run) = 3 /\
  anthropic_calls (trace run) = 1 /\
  outcome run = inr (PStr "Hello world") /\
  source_of (trace run) = Some FALLBACK.
Proof.
  apply (C6_one_fallback_request
           (shipped (PostResponse (error_response 503 "service unavailable"))
                    (AnthropicMessage hello)) "hi").
  - intros j _. eexists. reflexivity.
  - reflexivity.
  - reflexivity.
Defined.

Example C6_fallback_failure_is_surfaced :
  outcome (call_llm_with_fallback
             (shipped (PostRaises (ExtClientError "refused"))
                      (AnthropicRaises "anthropic.RateLimitError" "429"))
             "hi")
  = inl (OtherError "anthropic.RateLimitError" "429").
Proof. reflexivity. Qed.

(** C7. When every attempt of the budget ([N >= 1]) has failed and fallback
    is switched off or has no key, the run sends nothing to the secondary
    backend and ends with the error recorded for the last attempt, which is
    one of the four kinds of backend error. *)
Theorem C7_no_fallback_surfaces_last_error w prompt :
  1 <= VSCODE_MAX_RETRIES w ->
  primary_exhausted w ->
  VSCODE_LLM_FALLBACK_ENABLED w = false \/ fallback_available w = false ->
  let run := call_llm_with_fallback w prompt in
  anthropic_calls (trace run) = 0 /\
  posts (trace run) = VSCODE_MAX_RETRIES w /\
  exists e,
    attempt_result_of w (VSCODE_MAX_RETRIES w - 1) = Failed e /\
    outcome run = inl e /\
    (kind_of e = Some ConnectionError \/ kind_of e = Some ContentFiltered \/
     kind_of e = Some EmptyResponse \/ kind_of e = Some ProtocolError).
Proof.
  intros HN Hex Hno run.
  destruct (pipeline_exhausted w prompt Hex)
    as (e & _ & _ & Hlast & Hw & Ht & Ho).
  destruct (fallback_or_raise_reraises w e Hno) as [Hr Hf].
  assert (Hwire : wire (trace run) = schedule w (seq 0 (VSCODE_MAX_RETRIES w))).
  { unfold run. now rewrite Ht, wire_app, Hw, Hf, app_nil_r. }
  repeat split.
  - now rewrite <- anthropic_calls_wire, Hwire, anthropic_calls_schedule.
  - now rewrite <- posts_wire, Hwire, posts_schedule, length_seq.
  - exists e. destruct (VSCODE_MAX_RETRIES w) as [|m]; [lia|].
    replace (S m - 1) with m by lia.
    repeat split; [exact Hlast | unfold run; now rewrite Ho |].
    now apply failed_kind in Hlast.
Qed.

Lemma C7_witness :
  let w := no_fallback 3 (fun _ => PostRaises (ExtClientError "refused")) in
  let run := call_llm_with_fallback w "hi" in
  anthropic_calls (trace run) = 0 /\
  posts (trace run) = 3 /\
  exists e,
    attempt_result_of w 2 = Failed e /\
    outcome run = inl e /\
    (kind_of e = Some ConnectionError \/ kind_of e = Some ContentFiltered \/
     kind_of e = Some EmptyResponse \/ kind_of e = Some ProtocolError).
Proof.
  apply (C7_no_fallback_surfaces_last_error
           (no_fallback 3 (fun _ => PostRaises (ExtClientError "refused")))
           "hi").
  - simpl. lia.
  - intros j _. eexists. reflexivity.
  - left. reflexivity.
Defined.

(** C8, at the input where the code departs from it. With a budget of 2
    and fallback switched off, the primary backend answers status 200 with
    the JSON document [null]: a response without choices. [data.get] of
    line 106 raises an [AttributeError], which no [except] clause matches:
    the attempt is not recorded as an empty response, and the run ends with
    the [AttributeError] after one request and no delay. *)
Example C8_null_document_is_not_an_empty_response :
  let w := no_fallback 2 (fun _ => PostResponse (ok_response PNone)) in
  let run := call_llm_with_fallback w "What is 2 + 2?" in
  first_choice_content PNone = None /\
  attempt_result_of w 0 = Escaped AttributeError /\
  kind_of AttributeError = None /\
  outcome run = inl AttributeError /\
  posts (trace run) = 1 /\
  sleeps (trace run) = [].
Proof. repeat split. Qed.

(** The main path of C8. A response with status 200 whose document is an
    object without choices, or has a first choice with an empty content,
    makes the attempt fail with an [EmptyResponseError], which the loop
    records before going on. With a
    budget of 2, that answer to both attempts and fallback switched off, the
    run ends with the [EmptyResponseError] (kind [EmptyResponse]) after two
    requests with one delay of 2 seconds between them. *)
Theorem C8_empty_response_is_retried w prompt :
  (forall k resp entries,
     primary w k = PostResponse resp ->
     status resp = 200%Z ->
     json resp = inr (PDict entries) ->
     match dict_lookup entries "choices" with
     | Some choices => truthy choices = false
     | None => True
     end ->
     attempt_result_of w k =
       Failed (EmptyResponseError "No choices in response")) /\
  (forall k resp data c,
     primary w k = PostResponse resp ->
     status resp = 200%Z ->
     json resp = inr data ->
     first_choice_content data = Some c ->
     truthy c = false ->
     attempt_result_of w k =
       Failed (EmptyResponseError "Empty content in response")) /\
  (VSCODE_MAX_RETRIES w = 2 ->
   (forall k, k < 2 ->
      exists resp, primary w k = PostResponse resp /\ status resp = 200%Z /\
                   json resp = inr (chat_completion (PStr ""))) ->
   VSCODE_LLM_FALLBACK_ENABLED w = false ->
   let run := call_llm_with_fallback w prompt in
   outcome run = inl (EmptyResponseError "Empty content in response") /\
   kind_of (EmptyResponseError "Empty content in response")
     = Some EmptyResponse /\
   wire (trace run) = [Post 0; Sleep 2; Post 1]).
Proof.
  split; [|split].
  - intros k resp entries. apply no_choices_fails.
  - intros k resp data c. apply empty_content_fails.
  - intros HN Hresp Hoff run.
    assert (Hfail : forall k, k < 2 ->
              attempt_result_of w k =
              Failed (EmptyResponseError "Empty content in response")).
    { intros k Hk. destruct (Hresp k Hk) as (resp & Hp & Hs & Hj).
      now apply (empty_content_fails w k resp
                   (chat_completion (PStr "")) (PStr "")). }
    assert (Hex : primary_exhausted w).
    { intros j Hj. rewrite HN in Hj. eexists. now apply Hfail. }
    destruct (pipeline_exhausted w prompt Hex)
      as (e & _ & _ & Hlast & Hw & Ht & Ho).
    destruct (fallback_or_raise_reraises w e (or_introl Hoff)) as [Hr Hf].
    rewrite HN in Hlast, Hw. rewrite Hfail in Hlast by lia.
    injection Hlast as <-.
    repeat split.
    + unfold run. now rewrite Ho.
    + unfold run. rewrite Ht, wire_app, Hw, Hf, app_nil_r.
      unfold schedule. simpl. now rewrite HN.
Qed.

Lemma C8_witness :
  let w := no_fallback 2 (fun _ => PostResponse
                                     (ok_response (chat_completion (PStr "")))) in
  let run := call_llm_with_fallback w "hi" in
  outcome run = inl (EmptyResponseError "Empty content in response") /\
  kind_of (EmptyResponseError "Empty content in response")
    = Some EmptyResponse /\
  wire (trace run) = [Post 0; Sleep 2; Post 1].
Proof.
  apply (C8_empty_response_is_retried
           (no_fallback 2 (fun _ => PostResponse
                                      (ok_response (chat_completion (PStr "")))))
           "hi").
  - reflexivity.
  - intros k _. eexists. repeat split.
  - reflexivity.
Defined.

Example C8_no_choices :
  attempt_result_of
    (no_fallback 2 (fun _ => PostResponse (ok_response (PDict [("choices", PList [])]))))
    0
  = Failed (EmptyResponseError "No choices in response").
Proof. reflexivity. Qed.

(** C9, as stated, fails: with the script as shipped, a primary backend that
    refuses every connection and a secondary backend that rejects the key,
    the run ends with the exception of the Anthropic SDK, which stands for
    none of the five kinds. *)
Lemma C9_counterexample :
  let w := shipped (PostRaises (ExtClientError "Cannot connect to host"))
                   (AnthropicRaises "anthropic.AuthenticationError"
                                    "invalid x-api-key") in
  exists e, outcome (call_llm_with_fallback w "hi") = inl e /\
            ~ in_taxonomy e.
Proof.
  exists (OtherError "anthropic.AuthenticationError" "invalid x-api-key").
  split; [reflexivity|]. intros [kind H]. discriminate.
Qed.

(** C9, amended. No run raises an error of kind [FallbackUnavailable]: the
    script has no such error. A run whose attempts ([N >= 1] of them) all
    failed and that raises, raises either the error recorded for the last
    attempt, of kind [ConnectionError], [ContentFiltered], [EmptyResponse]
    or [ProtocolError], when fallback is switched off or has no key; or the
    exception raised by the secondary backend, unchanged and of no kind,
    when fallback was tried. *)
Theorem C9_terminal_error_after_exhaustion w prompt e :
  outcome (call_llm_with_fallback w prompt) = inl e ->
  kind_of e <> Some FallbackUnavailable /\
  (1 <= VSCODE_MAX_RETRIES w ->
   primary_exhausted w ->
   ((VSCODE_LLM_FALLBACK_ENABLED w = false \/ fallback_available w = false) /\
    attempt_result_of w (VSCODE_MAX_RETRIES w - 1) = Failed e /\
    (kind_of e = Some ConnectionError \/ kind_of e = Some ContentFiltered \/
     kind_of e = Some EmptyResponse \/ kind_of e = Some ProtocolError)) \/
   (VSCODE_LLM_FALLBACK_ENABLED w = true /\ fallback_available w = true /\
    kind_of e = None /\
    exists cls msg, anthropic w = AnthropicRaises cls msg /\
                    e = OtherError cls msg)).
Proof.
  intros Hraise. split.
  - now destruct e.
  - intros HN Hex.
    destruct (raises_cases w prompt e HN Hraise)
      as [(_ & Hno & Hlast) | [(_ & Hen & Hav & cls & msg & Ha & ->)
                              | (k & Hk & _ & Hesc)]].
    + left. split; [exact Hno|]. split; [exact Hlast|].
      now apply failed_kind in Hlast.
    + right. split; [exact Hen|]. split; [exact Hav|]. split; [reflexivity|].
      now exists cls, msg.
    + destruct (Hex k Hk) as [e' He']. congruence.
Qed.

Lemma C9_witness :
  let w := no_fallback 3 (fun _ => PostResponse
                                     (error_response 503 "service unavailable")) in
  let e := VSCodeLLMError "API error (503): service unavailable" in
  kind_of e <> Some FallbackUnavailable /\
  (((VSCODE_LLM_FALLBACK_ENABLED w = false \/ fallback_available w = false) /\
    attempt_result_of w 2 = Failed e /\
    (kind_of e = Some ConnectionError \/ kind_of e = Some ContentFiltered \/
     kind_of e = Some EmptyResponse \/ kind_of e = Some ProtocolError)) \/
   (VSCODE_LLM_FALLBACK_ENABLED w = true /\ fallback_available w = true /\
    kind_of e = None /\
    exists cls msg, anthropic w = AnthropicRaises cls msg /\
                    e = OtherError cls msg)).
Proof.
  destruct (C9_terminal_error_after_exhaustion
              (no_fallback 3 (fun _ => PostResponse
                                         (error_response 503 "service unavailable")))
              "hi" (VSCodeLLMError "API error (503): service unavailable")
              eq_refl)
    as [Hkind Hcases].
  split; [exact Hkind|]. apply Hcases.
  - simpl. lia.
  - intros j _. eexists. reflexivity.
Defined.

(** C10. A response with status 200 whose first choice has no ['message'],
    or whose message has no ['content'], makes line 109 raise a [KeyError].
    No [except] clause of the loop or of [call_llm_with_fallback] matches it:
    the attempt is not recorded as a failure (so not as an empty response),
    the run ends with the [KeyError] right after the request of that
    attempt, whatever is left of the budget, and the secondary backend is
    not called, whether fallback is available or not. *)
Theorem C10_missing_key_bypasses_retry_and_fallback
  w prompt k resp entries choice others :
  k < VSCODE_MAX_RETRIES w ->
  fails_before w k ->
  primary w k = PostResponse resp ->
  status resp = 200%Z ->
  json resp = inr (PDict entries) ->
  dict_lookup entries "choices" = Some (PList (PDict choice :: others)) ->
  dict_lookup choice "message" = None \/
  (exists msg, dict_lookup choice "message" = Some (PDict msg) /\
               dict_lookup msg "content" = None) ->
  let run := call_llm_with_fallback w prompt in
  exists key,
    attempt_result_of w k = Escaped (KeyError (PStr key)) /\
    (forall e, attempt_result_of w k <> Failed e) /\
    outcome run = inl (KeyError (PStr key)) /\
    kind_of (KeyError (PStr key)) = None /\
    wire (trace run) = schedule w (seq 0 k) ++ [Post k] /\
    posts (trace run) = S k /\
    anthropic_calls (trace run) = 0.
Proof.
  intros Hk Hfail Hp Hs Hj Hc Hmiss run.
  assert (Hesc : exists key, attempt_result_of w k = Escaped (KeyError (PStr key))).
  { destruct Hmiss as [Hm | (msg & Hm & Hcontent)].
    - exists "message". eapply missing_message_escapes; eauto.
    - exists "content". eapply missing_content_escapes; eauto. }
  destruct Hesc as [key Hesc]. exists key.
  destruct (pipeline_stops w prompt k (inl (KeyError (PStr key))) Hk Hfail)
    as [Ho (before & Htr & Hw)]; [now rewrite Hesc|].
  assert (Hwire : wire (trace run) = schedule w (seq 0 k) ++ [Post k]).
  { unfold run. now rewrite Htr, wire_app, wire_attempt_once, Hw. }
  repeat split.
  - exact Hesc.
  - intros e He. congruence.
  - exact Ho.
  - exact Hwire.
  - rewrite <- posts_wire, Hwire, posts_app, posts_schedule, length_seq.
    change (posts [Post k]) with 1. lia.
  - rewrite <- anthropic_calls_wire, Hwire, anthropic_calls_app.
    now rewrite anthropic_calls_schedule.
Qed.

Lemma C10_witness :
  let w := shipped
             (PostResponse
                (ok_response
                   (PDict [("choices",
                            PList [PDict [("finish_reason", PStr "stop")]])])))
             (AnthropicMessage hello) in
  let run := call_llm_with_fallback w "hi" in
  VSCODE_LLM_FALLBACK_ENABLED w = true /\
  fallback_available w = true /\
  exists key,
    attempt_result_of w 0 = Escaped (KeyError (PStr key)) /\
    (forall e, attempt_result_of w 0 <> Failed e) /\
    outcome run = inl (KeyError (PStr key)) /\
    kind_of (KeyError (PStr key)) = None /\
    wire (trace run) = schedule w (seq 0 0) ++ [Post 0] /\
    posts (trace run) = 1 /\
    anthropic_calls (trace run) = 0.
Proof.
  split; [reflexivity|]. split; [reflexivity|].
  apply (C10_missing_key_bypasses_retry_and_fallback
           (shipped
              (PostResponse
                 (ok_response
                    (PDict [("choices",
                             PList [PDict [("finish_reason", PStr "stop")]])])))
              (AnthropicMessage hello))
           "hi" 0
           (ok_response
              (PDict [("choices",
                       PList [PDict [("finish_reason", PStr "stop")]])]))
           [("choices", PList [PDict [("finish_reason", PStr "stop")]])]
           [("finish_reason", PStr "stop")] []).
  - simpl. lia.
  - intros j Hj. exfalso. lia.
  - reflexivity.
  - reflexivity.
  - reflexivity.
  - reflexivity.
  - left. reflexivity.
Defined.

(* ================================================================== *)
(** * Further properties *)

(** ** The shape of every run *)

(** Whatever the backends answer, a run is one of two: the loop ends at an
    attempt of the budget, whose request is the last thing sent; or the
    budget is exhausted, and one request goes to the secondary backend
    exactly when fallback is switched on and has its key. *)
Lemma run_shape w prompt :
  (exists k o,
     k < VSCODE_MAX_RETRIES w /\ fails_before w k /\
     stops_with (attempt_result_of w k) = Some o /\
     outcome (call_vscode_llm w prompt) = o /\
     outcome (call_llm_with_fallback w prompt) = o /\
     wire (trace (call_vscode_llm w prompt)) = schedule w (seq 0 k) ++ [Post k] /\
     wire (trace (call_llm_with_fallback w prompt)) =
       schedule w (seq 0 k) ++ [Post k]) \/
  (primary_exhausted w /\
   wire (trace (call_vscode_llm w prompt)) =
     schedule w (seq 0 (VSCODE_MAX_RETRIES w)) /\
   wire (trace (call_llm_with_fallback w prompt)) =
     schedule w (seq 0 (VSCODE_MAX_RETRIES w)) ++
     (if VSCODE_LLM_FALLBACK_ENABLED w && fallback_available w
      then [AnthropicCreate] else [])).
Proof.
  destruct (loop_cases w (VSCODE_MAX_RETRIES w))
    as [Hex | (k & o & Hk & Hf & Ho)].
  - right. split; [exact Hex|].
    destruct (pipeline_exhausted w prompt Hex)
      as (e & _ & _ & _ & Hw & Ht & _).
    split; [exact Hw|]. rewrite Ht, wire_app, Hw. f_equal.
    destruct (VSCODE_LLM_FALLBACK_ENABLED w) eqn:Hen.
    + destruct (fallback_available w) eqn:Hav; simpl.
      * now destruct (fallback_or_raise_falls_back w e Hen Hav).
      * now destruct (fallback_or_raise_reraises w e (or_intror Hav)).
    + now destruct (fallback_or_raise_reraises w e (or_introl Hen)).
  - left. exists k, o.
    destruct (pipeline_stops w prompt k o Hk Hf Ho) as [Hout (before & Ht & Hw)].
    destruct (retry_loop_stops w k 0 (VSCODE_MAX_RETRIES w) None o)
      as [Ho' (before' & Ht' & Hw')]; auto.
    { intros j Hj. apply Hf. lia. }
    simpl in Ht'.
    repeat split; auto.
    + now rewrite outcome_call_vscode_llm.
    + now rewrite wire_call_vscode_llm, Ht', wire_app, wire_attempt_once, Hw'.
    + now rewrite Ht, wire_app, wire_attempt_once, Hw.
Qed.

(** Every delay of the schedule of the first [k] attempts is slept when the
    [k]-th is still within the budget. *)
Lemma sleeps_schedule_prefix w k :
  k <= VSCODE_MAX_RETRIES w ->
  sleeps (schedule w (seq 0 k)) =
  map wait_time (seq 0 (Nat.min k (VSCODE_MAX_RETRIES w - 1))).
Proof.
  intros Hk. destruct (Nat.eq_dec k (VSCODE_MAX_RETRIES w)) as [->|Hne].
  - rewrite sleeps_schedule. f_equal. f_equal. lia.
  - rewrite sleeps_schedule_inner by lia. f_equal. f_equal. lia.
Qed.

Lemma total_sleep_prefix j :
  fold_right Z.add 0%Z (map wait_time (seq 0 j)) =
  (2 ^ (Z.of_nat j + 1) - 2)%Z.
Proof.
  induction j as [|j IH]; [reflexivity|].
  rewrite seq_S, map_app, fold_right_app.
  change (fold_right Z.add 0%Z (map wait_time [0 + j]))
    with (wait_time j + 0)%Z.
  assert (G : forall l a,
             fold_right Z.add a l = (fold_right Z.add 0 l + a)%Z).
  { induction l as [|x l IHl]; intros a; simpl; [lia|]. rewrite IHl. lia. }
  rewrite G, IH. unfold wait_time.
  replace (Z.of_nat (S j) + 1)%Z with (Z.succ (Z.of_nat j + 1)) by lia.
  rewrite Z.pow_succ_r by lia. lia.
Qed.

(** ** What a run costs *)

(** X1. Whatever the backends answer, a run sends at most
    [VSCODE_MAX_RETRIES] requests to the primary backend and at most one to
    the secondary; the delays it sleeps are the first [j] of 2, 4, 8, ...
    for some [j <= VSCODE_MAX_RETRIES - 1], so it sleeps [2 ** (j+1) - 2]
    seconds in all, at most [2 ** VSCODE_MAX_RETRIES - 2]. *)
Theorem X1_requests_and_delays_are_bounded w prompt :
  let t := trace (call_llm_with_fallback w prompt) in
  posts t <= VSCODE_MAX_RETRIES w /\
  anthropic_calls t <= 1 /\
  exists j,
    j <= VSCODE_MAX_RETRIES w - 1 /\
    sleeps t = map wait_time (seq 0 j) /\
    total_sleep t = (2 ^ (Z.of_nat j + 1) - 2)%Z /\
    (total_sleep t <= 2 ^ Z.of_nat (Nat.max 1 (VSCODE_MAX_RETRIES w)) - 2)%Z.
Proof.
  intros t.
  assert (Hbound : forall j, j <= VSCODE_MAX_RETRIES w - 1 ->
            (2 ^ (Z.of_nat j + 1) - 2
             <= 2 ^ Z.of_nat (Nat.max 1 (VSCODE_MAX_RETRIES w)) - 2)%Z).
  { intros j Hj. apply Z.sub_le_mono_r. apply Z.pow_le_mono_r; [lia|].
    destruct (Nat.max_spec 1 (VSCODE_MAX_RETRIES w)) as [[? ->]|[? ->]]; lia. }
  destruct (run_shape w prompt)
    as [(k & o & Hk & _ & _ & _ & _ & _ & Hw) | (_ & _ & Hw)]; fold t in Hw.
  - repeat split.
    + rewrite <- posts_wire, Hw, posts_app, posts_schedule, length_seq.
      change (posts [Post k]) with 1. lia.
    + rewrite <- anthropic_calls_wire, Hw, anthropic_calls_app.
      rewrite anthropic_calls_schedule.
      change (anthropic_calls [Post k]) with 0. lia.
    + assert (Hs : sleeps t = map wait_time (seq 0 k)).
      { rewrite <- sleeps_wire, Hw, sleeps_app.
        rewrite sleeps_schedule_inner by lia. simpl. now rewrite app_nil_r. }
      exists k. unfold total_sleep. rewrite Hs, total_sleep_prefix.
      repeat split; [lia | apply Hbound; lia].
  - assert (Hextra : forall b : bool,
              posts (if b then [AnthropicCreate] else []) = 0 /\
              anthropic_calls (if b then [AnthropicCreate] else []) <= 1 /\
              sleeps (if b then [AnthropicCreate] else []) = []).
    { intros []; repeat split; unfold anthropic_calls; simpl; lia. }
    destruct (Hextra (VSCODE_LLM_FALLBACK_ENABLED w && fallback_available w))
      as (Hp & Ha & Hs).
    repeat split.
    + rewrite <- posts_wire, Hw, posts_app, posts_schedule, length_seq, Hp.
      lia.
    + rewrite <- anthropic_calls_wire, Hw, anthropic_calls_app.
      rewrite anthropic_calls_schedule. simpl. exact Ha.
    + assert (Hsl : sleeps t = map wait_time (seq 0 (VSCODE_MAX_RETRIES w - 1))).
      { rewrite <- sleeps_wire, Hw, sleeps_app, Hs, app_nil_r.
        apply sleeps_schedule. }
      exists (VSCODE_MAX_RETRIES w - 1). unfold total_sleep.
      rewrite Hsl, total_sleep_prefix.
      repeat split; [lia | apply Hbound; lia].
Qed.

(** X2. A request reaches the secondary backend only in a run whose
    attempts all failed with a recorded error, with fallback switched on
    and its key set; it is then the last thing sent, after exactly
    [VSCODE_MAX_RETRIES] requests to the primary backend. *)
Theorem X2_secondary_called_only_after_exhaustion w prompt :
  anthropic_calls (trace (call_llm_with_fallback w prompt)) <> 0 ->
  primary_exhausted w /\
  VSCODE_LLM_FALLBACK_ENABLED w = true /\
  fallback_available w = true /\
  exists before,
    wire (trace (call_llm_with_fallback w prompt)) =
      before ++ [AnthropicCreate] /\
    posts before = VSCODE_MAX_RETRIES w /\
    anthropic_calls before = 0.
Proof.
  intros Hcall.
  destruct (run_shape w prompt)
    as [(k & o & _ & _ & _ & _ & _ & _ & Hw) | (Hex & _ & Hw)].
  - exfalso. apply Hcall.
    rewrite <- anthropic_calls_wire, Hw, anthropic_calls_app.
    now rewrite anthropic_calls_schedule.
  - destruct (VSCODE_LLM_FALLBACK_ENABLED w); simpl in Hw.
    + destruct (fallback_available w).
      * repeat split; auto.
        exists (schedule w (seq 0 (VSCODE_MAX_RETRIES w))).
        repeat split; auto.
        -- now rewrite posts_schedule, length_seq.
        -- apply anthropic_calls_schedule.
      * exfalso. apply Hcall.
        rewrite <- anthropic_calls_wire, Hw, app_nil_r.
        apply anthropic_calls_schedule.
    + exfalso. apply Hcall.
      rewrite <- anthropic_calls_wire, Hw, app_nil_r.
      apply anthropic_calls_schedule.
Qed.

Lemma X2_witness :
  let w := shipped (PostRaises (ExtClientError "Cannot connect to host"))
                   (AnthropicRaises "anthropic.RateLimitError" "429") in
  primary_exhausted w /\
  VSCODE_LLM_FALLBACK_ENABLED w = true /\
  fallback_available w = true /\
  exists before,
    wire (trace (call_llm_with_fallback w "hi")) = before ++ [AnthropicCreate] /\
    posts before = 3 /\
    anthropic_calls before = 0.
Proof.
  apply (X2_secondary_called_only_after_exhaustion
           (shipped (PostRaises (ExtClientError "Cannot connect to host"))
                    (AnthropicRaises "anthropic.RateLimitError" "429")) "hi").
  vm_compute. discriminate.
Defined.

(** ** What the primary backend can return and raise *)

(** What comes back from reading a response is never empty. *)
Lemma read_response_returns_truthy k resp c :
  outcome (read_response k resp) = inr c -> truthy c = true.
Proof.
  unfold read_response. intros H. run;
    match goal with
    | E : negb (truthy ?x) = false, H : inr ?x = inr c |- _ =>
        injection H as <-; now apply negb_false_iff in E
    end.
Qed.

Ltac same_exn :=
  repeat match goal with
         | H : inl _ = inl _ |- _ => injection H as H; try subst
         | H : inr _ = inr _ |- _ => injection H as H; try subst
         end.

Lemma read_response_raises k resp e :
  outcome (read_response k resp) = inl e -> raised_by_reading resp e.
Proof.
  unfold read_response. intros H. run; same_exn.
  all: try (now (simpl; eauto)).
  all: repeat match goal with
         | |- context [raised ?x] => destruct x; simpl; auto
         | E : py_get ?d _ _ = inl _ |- _ =>
             destruct d; simpl in E; inversion E; subst; simpl; auto
         | E : py_getitem ?d _ = inl _ |- _ =>
             unfold py_getitem in E; repeat branch; inversion E; subst;
             simpl; auto
         | E : py_getitem_0 ?d = inl _ |- _ =>
             unfold py_getitem_0 in E; repeat branch; inversion E; subst;
             simpl; auto
         end.
Qed.

Lemma succeeded_truthy w k c :
  attempt_result_of w k = Succeeded c -> truthy c = true.
Proof.
  rewrite attempt_result_of_request, outcome_request.
  destruct (primary w k) as [e|resp]; simpl.
  - now destruct (outcome (on_error k (raised e))).
  - destruct (outcome (read_response k resp)) as [e|c'] eqn:E.
    + now destruct (outcome (on_error k e)).
    + intros [= <-]. eapply read_response_returns_truthy, E.
Qed.

(** The base class is recorded only for a response that arrived with a
    status other than 200. *)
Lemma failed_base_error w k m :
  attempt_result_of w k = Failed (VSCodeLLMError m) ->
  exists resp (body : string),
    primary w k = PostResponse resp /\
    m = ("API error (" ++ str_of_Z (status resp) ++ "): " ++ body)%string.
Proof.
  rewrite attempt_result_of_request, outcome_request.
  destruct (primary w k) as [e|resp]; simpl.
  - now destruct e.
  - destruct (outcome (read_response k resp)) as [e|c'] eqn:E; [|discriminate].
    apply read_response_raises in E.
    destruct e; simpl in *; try discriminate; try contradiction.
    intros [= <-]. destruct E as [body ->]. now exists resp, body.
Qed.

(** X3. Whatever [call_vscode_llm] returns is not empty: a response whose
    content is [""], [None] or another empty object is never handed
    back. *)
Theorem X3_primary_never_returns_empty w prompt c :
  outcome (call_vscode_llm w prompt) = inr c -> truthy c = true.
Proof.
  intros H.
  destruct (run_shape w prompt)
    as [(k & o & _ & _ & Hs & Ho & _) | (Hex & _)].
  - rewrite H in Ho. subst o.
    destruct (attempt_result_of w k) as [c'|e|e] eqn:E; simpl in Hs;
      try discriminate.
    injection Hs as <-. eapply succeeded_truthy, E.
  - destruct (pipeline_exhausted w prompt Hex) as (e & He & _). congruence.
Qed.

Lemma X3_witness :
  let w := shipped (PostResponse (ok_response (chat_completion (PStr "4"))))
                   (AnthropicMessage hello) in
  outcome (call_vscode_llm w "What is 2 + 2?") = inr (PStr "4") /\
  truthy (PStr "4") = true.
Proof.
  split; [reflexivity|].
  apply (X3_primary_never_returns_empty
           (shipped (PostResponse (ok_response (chat_completion (PStr "4"))))
                    (AnthropicMessage hello))
           "What is 2 + 2?" (PStr "4")).
  reflexivity.
Defined.

(** X4. When [call_vscode_llm] raises, the class of the exception tells how
    far it went. An exception of the script's hierarchy is raised only after
    the whole budget: every attempt failed and [VSCODE_MAX_RETRIES] requests
    were sent, as the docstring says. Any other exception comes from the
    first attempt that did not fail with a recorded error, right after its
    request. *)
Theorem X4_class_of_the_exception_tells_the_attempts w prompt e :
  outcome (call_vscode_llm w prompt) = inl e ->
  if is_VSCodeLLMError e
  then primary_exhausted w /\
       posts (trace (call_vscode_llm w prompt)) = VSCODE_MAX_RETRIES w
  else exists k,
         k < VSCODE_MAX_RETRIES w /\ fails_before w k /\
         attempt_result_of w k = Escaped e /\
         posts (trace (call_vscode_llm w prompt)) = S k.
Proof.
  intros H.
  destruct (run_shape w prompt)
    as [(k & o & Hk & Hf & Hs & Ho & _ & Hw & _) | (Hex & Hw & _)].
  - rewrite H in Ho. subst o.
    destruct (attempt_result_of w k) as [c'|e'|e'] eqn:E; simpl in Hs;
      try discriminate.
    injection Hs as ->.
    destruct (escaped_kind w k e E) as [-> _].
    exists k. repeat split; auto.
    rewrite <- posts_wire, Hw, posts_app, posts_schedule, length_seq.
    change (posts [Post k]) with 1. lia.
  - destruct (pipeline_exhausted w prompt Hex) as (e' & He & Hin & _).
    assert (e' = e) as -> by congruence. rewrite Hin.
    split; [exact Hex|].
    now rewrite <- posts_wire, Hw, posts_schedule, length_seq.
Qed.

Lemma X4_witness :
  let w := shipped (PostResponse (error_response 503 "service unavailable"))
                   (AnthropicMessage hello) in
  primary_exhausted w /\ posts (trace (call_vscode_llm w "hi")) = 3.
Proof.
  apply (X4_class_of_the_exception_tells_the_attempts
           (shipped (PostResponse (error_response 503 "service unavailable"))
                    (AnthropicMessage hello))
           "hi" (VSCodeLLMError "API error (503): service unavailable")).
  reflexivity.
Defined.

(** X5. The error of line 141, [VSCodeLLMError("All retries failed")], is
    raised exactly when the budget is zero, and then without any request:
    with a budget of one or more, the error raised after the loop is always
    one that an attempt recorded. *)
Theorem X5_default_error_iff_no_budget w prompt :
  (outcome (call_vscode_llm w prompt) = inl (VSCodeLLMError "All retries failed")
   <-> VSCODE_MAX_RETRIES w = 0) /\
  (VSCODE_MAX_RETRIES w = 0 -> wire (trace (call_vscode_llm w prompt)) = []).
Proof.
  split; [split|].
  - intros H. destruct (VSCODE_MAX_RETRIES w) as [|m] eqn:EN; [reflexivity|].
    exfalso.
    destruct (run_shape w prompt)
      as [(k & o & _ & _ & Hs & Ho & _) | (Hex & _)].
    + rewrite H in Ho. subst o.
      destruct (attempt_result_of w k) as [c'|e'|e'] eqn:E; simpl in Hs;
        try discriminate.
      injection Hs as ->. now destruct (escaped_kind w k _ E).
    + destruct (pipeline_exhausted w prompt Hex) as (e & He & _ & Hlast & _).
      rewrite EN in Hlast. assert (e = VSCodeLLMError "All retries failed")
        as -> by congruence.
      apply failed_base_error in Hlast as (resp & body & _ & Hm).
      discriminate.
  - intros HN. rewrite outcome_call_vscode_llm, HN. reflexivity.
  - intros HN. rewrite wire_call_vscode_llm, HN. reflexivity.
Qed.

(** ** Exceptions of the HTTP client *)

Lemma foreign_escapes w k cls msg :
  raises_foreign (primary w k) cls msg ->
  attempt_result_of w k = Escaped (OtherError cls msg).
Proof.
  rewrite attempt_result_of_request, outcome_request.
  intros [-> | (resp & -> & [[Hs Ht] | [Hs Hj]])]; [reflexivity| |].
  - unfold read_response. apply Z.eqb_neq in Hs. now rewrite Hs, Ht.
  - unfold read_response. now rewrite Hs, Hj.
Qed.

(** X6. Only [aiohttp.ClientError] counts as a connection failure. Any
    other exception of the request (an [asyncio.TimeoutError] of the
    120-second limit, a [json.JSONDecodeError] of a body with status 200)
    matches no [except] clause: the run ends with it right after that
    request, without further attempt, delay or request to the secondary
    backend. *)
Theorem X6_other_exceptions_are_not_retried w prompt k cls msg :
  k < VSCODE_MAX_RETRIES w ->
  fails_before w k ->
  raises_foreign (primary w k) cls msg ->
  let run := call_llm_with_fallback w prompt in
  outcome run = inl (OtherError cls msg) /\
  wire (trace run) = schedule w (seq 0 k) ++ [Post k] /\
  posts (trace run) = S k /\
  anthropic_calls (trace run) = 0.
Proof.
  intros Hk Hfail Hraise run.
  pose proof (foreign_escapes w k cls msg Hraise) as Hesc.
  destruct (pipeline_stops w prompt k (inl (OtherError cls msg)) Hk Hfail)
    as [Ho (before & Htr & Hw)]; [now rewrite Hesc|].
  assert (Hwire : wire (trace run) = schedule w (seq 0 k) ++ [Post k]).
  { unfold run. now rewrite Htr, wire_app, wire_attempt_once, Hw. }
  repeat split.
  - exact Ho.
  - exact Hwire.
  - rewrite <- posts_wire, Hwire, posts_app, posts_schedule, length_seq.
    change (posts [Post k]) with 1. lia.
  - rewrite <- anthropic_calls_wire, Hwire, anthropic_calls_app.
    now rewrite anthropic_calls_schedule.
Qed.

Lemma X6_witness :
  let w := shipped (PostRaises (ExtOther "asyncio.TimeoutError" ""))
                   (AnthropicMessage hello) in
  let run := call_llm_with_fallback w "hi" in
  outcome run = inl (OtherError "asyncio.TimeoutError" "") /\
  wire (trace run) = schedule w (seq 0 0) ++ [Post 0] /\
  posts (trace run) = 1 /\
  anthropic_calls (trace run) = 0.
Proof.
  apply (X6_other_exceptions_are_not_retried
           (shipped (PostRaises (ExtOther "asyncio.TimeoutError" ""))
                    (AnthropicMessage hello))
           "hi" 0 "asyncio.TimeoutError" "").
  - simpl. lia.
  - intros j Hj. exfalso. lia.
  - left. reflexivity.
Defined.

(** X7. An [aiohttp.ClientError] raised while the body of a response is
    read (a [ContentTypeError] for a status 200 that is not JSON, a broken
    transfer) is recorded as a connection error like a failed connection,
    whatever the status, and the loop goes on. *)
Theorem X7_client_error_while_reading_is_a_connection_error w k resp msg :
  primary w k = PostResponse resp ->
  body_raises_client_error resp msg ->
  attempt_result_of w k =
    Failed (VSCodeLLMConnectionError ("Connection error: " ++ msg)) /\
  kind_of (VSCodeLLMConnectionError ("Connection error: " ++ msg))
    = Some ConnectionError.
Proof.
  intros Hp Hbody. split; [|reflexivity].
  rewrite attempt_result_of_request, outcome_request, Hp.
  unfold read_response.
  destruct Hbody as [[Hs Ht] | [Hs Hj]].
  - apply Z.eqb_neq in Hs. now rewrite Hs, Ht.
  - now rewrite Hs, Hj.
Qed.

Lemma X7_witness :
  let resp := {| status := 200; text := inr "<html>";
                 json := inl (ExtClientError "ContentTypeError") |} in
  let w := shipped (PostResponse resp) (AnthropicMessage hello) in
  attempt_result_of w 0 =
    Failed (VSCodeLLMConnectionError "Connection error: ContentTypeError") /\
  kind_of (VSCodeLLMConnectionError "Connection error: ContentTypeError")
    = Some ConnectionError.
Proof.
  apply (X7_client_error_while_reading_is_a_connection_error
           (shipped (PostResponse
                       {| status := 200; text := inr "<html>";
                          json := inl (ExtClientError "ContentTypeError") |})
                    (AnthropicMessage hello))
           0
           {| status := 200; text := inr "<html>";
              json := inl (ExtClientError "ContentTypeError") |}
           "ContentTypeError").
  - reflexivity.
  - right. split; reflexivity.
Defined.

(** ** The fallback *)

Lemma join_text_no_text blocks : no_text blocks -> join_text blocks = "".
Proof.
  induction blocks as [|b blocks IH]; intros H; [reflexivity|].
  assert (Hrest : no_text blocks) by (intros t Ht; apply H; now right).
  destruct b as [t|]; simpl; [|now apply IH].
  rewrite (H t) by now left. now apply IH.
Qed.

(** X9. The fallback path has no test for an empty answer. When the budget
    is exhausted, fallback is available and the secondary backend answers
    with no text (no block, blocks of another kind only, or empty text
    blocks), the run returns the empty string as a success, which the
    primary path never does. *)
Theorem X9_fallback_returns_an_empty_answer w prompt m :
  primary_exhausted w ->
  VSCODE_LLM_FALLBACK_ENABLED w = true ->
  fallback_available w = true ->
  anthropic w = AnthropicMessage m ->
  no_text (content m) ->
  let run := call_llm_with_fallback w prompt in
  outcome run = inr (PStr "") /\
  truthy (PStr "") = false /\
  source_of (trace run) = Some FALLBACK.
Proof.
  intros Hex Hen Hav Hm Hno run.
  destruct (pipeline_exhausted w prompt Hex) as (e & _ & _ & _ & _ & Ht & Ho).
  destruct (fallback_or_raise_falls_back w e Hen Hav) as [_ Hres].
  rewrite Hm in Hres. destruct Hres as [Hr Hs].
  rewrite (join_text_no_text _ Hno) in Hr.
  repeat split.
  - unfold run. now rewrite Ho.
  - unfold run. now rewrite Ht, source_of_app, Hs.
Qed.

Lemma X9_witness :
  let m := {| content := [OtherBlock; TextBlock ""];
              input_tokens := 12; output_tokens := 0 |} in
  let w := shipped (PostRaises (ExtClientError "refused")) (AnthropicMessage m) in
  let run := call_llm_with_fallback w "hi" in
  outcome run = inr (PStr "") /\
  truthy (PStr "") = false /\
  source_of (trace run) = Some FALLBACK.
Proof.
  apply (X9_fallback_returns_an_empty_answer
           (shipped (PostRaises (ExtClientError "refused"))
                    (AnthropicMessage
                       {| content := [OtherBlock; TextBlock ""];
                          input_tokens := 12; output_tokens := 0 |}))
           "hi"
           {| content := [OtherBlock; TextBlock ""];
              input_tokens := 12; output_tokens := 0 |}).
  - intros j _. eexists. reflexivity.
  - reflexivity.
  - reflexivity.
  - reflexivity.
  - intros t [H | [H | []]]; [discriminate | now injection H as <-].
Defined.

(** X10. When [VSCODE_LLM_FALLBACK] is set to a value that does not read
    "true" up to case ("1", "yes", "on"), or [ANTHROPIC_API_KEY] is unset or
    empty, no run ever sends a request to the secondary backend, whatever
    the backends answer: the run ends as [call_vscode_llm] does, with the
    same result or the same exception. *)
Theorem X10_no_fallback_without_flag_and_key w prompt :
  (exists v, env_VSCODE_LLM_FALLBACK w = Some v /\ lower v <> "true") \/
  env_ANTHROPIC_API_KEY w = None \/ env_ANTHROPIC_API_KEY w = Some "" ->
  anthropic_calls (trace (call_llm_with_fallback w prompt)) = 0 /\
  outcome (call_llm_with_fallback w prompt) =
    outcome (call_vscode_llm w prompt).
Proof.
  intros Hoff.
  assert (Hno : VSCODE_LLM_FALLBACK_ENABLED w = false \/
                fallback_available w = false).
  { destruct Hoff as [(v & Hv & Hne) | [Hk | Hk]].
    - left. unfold VSCODE_LLM_FALLBACK_ENABLED. rewrite Hv. simpl.
      now apply String.eqb_neq.
    - right. unfold fallback_available. now rewrite Hk.
    - right. unfold fallback_available. now rewrite Hk. }
  split.
  - destruct (run_shape w prompt)
      as [(k & o & _ & _ & _ & _ & _ & _ & Hw) | (_ & _ & Hw)];
      rewrite <- anthropic_calls_wire, Hw, anthropic_calls_app,
        anthropic_calls_schedule; [reflexivity|].
    now destruct Hno as [-> | ->]; rewrite ?andb_false_r.
  - rewrite outcome_call_llm_with_fallback.
    destruct (outcome (call_vscode_llm w prompt)) as [e|c]; [|reflexivity].
    destruct (is_VSCodeLLMError e); [|reflexivity].
    now destruct (fallback_or_raise_reraises w e Hno).
Qed.

Lemma X10_witness :
  let w := {| VSCODE_MAX_RETRIES := 3;
              env_VSCODE_LLM_FALLBACK := Some "1";
              env_VSCODE_LLM_ENDPOINT := None;
              env_ANTHROPIC_API_KEY := Some "sk-ant-test";
              primary := fun _ => PostRaises (ExtClientError "refused");
              anthropic := AnthropicMessage hello |} in
  anthropic_calls (trace (call_llm_with_fallback w "hi")) = 0 /\
  outcome (call_llm_with_fallback w "hi") = outcome (call_vscode_llm w "hi").
Proof.
  apply (X10_no_fallback_without_flag_and_key
           {| VSCODE_MAX_RETRIES := 3;
              env_VSCODE_LLM_FALLBACK := Some "1";
              env_VSCODE_LLM_ENDPOINT := None;
              env_ANTHROPIC_API_KEY := Some "sk-ant-test";
              primary := fun _ => PostRaises (ExtClientError "refused");
              anthropic := AnthropicMessage hello |} "hi").
  left. exists "1". split; [reflexivity | discriminate].
Defined.

(** ** Strings cut and joined *)

Lemma length_app_string (a b : string) :
  String.length (a ++ b) = String.length a + String.length b.
Proof. induction a as [|c a IH]; simpl; [reflexivity | now rewrite IH]. Qed.

Lemma substring_whole n : forall s : string,
  String.length s <= n -> substring 0 n s = s.
Proof.
  induction n as [|n IH]; intros [|c s] H; simpl in *; try reflexivity.
  - lia.
  - f_equal. apply IH. lia.
Qed.

Lemma substring_head n : forall s : string,
  n <= String.length s ->
  exists tail : string,
    s = (substring 0 n s ++ tail)%string /\
    String.length (substring 0 n s) = n.
Proof.
  induction n as [|n IH]; intros s H.
  - exists s. now destruct s.
  - destruct s as [|c s]; simpl in H; [lia|].
    destruct (IH s ltac:(lia)) as (tail & Hs & Hl).
    exists tail. simpl. split; [now rewrite <- Hs | now rewrite Hl].
Qed.

Lemma substring_app_left (a b : string) :
  substring 0 (String.length a) (a ++ b) = a.
Proof.
  induction a as [|c a IH]; simpl; [now destruct b | now rewrite IH].
Qed.

(** X11. The prompt is printed whole when it has at most 80 characters;
    a longer one is cut after its first 80 characters and followed by
    "...", 83 characters in all. It is the second line [call_vscode_llm]
    prints, before any request. *)
Theorem X11_printed_prompt_is_cut_at_80 w prompt :
  exists s rest,
    trace (call_vscode_llm w prompt) =
      Print (LCalling (endpoint w)) :: Print (LPrompt s) :: rest /\
    String.length s <= 83 /\
    (String.length prompt <= 80 -> s = prompt) /\
    (80 < String.length prompt ->
     exists head tail : string,
       prompt = (head ++ tail)%string /\ String.length head = 80 /\
       s = (head ++ "...")%string).
Proof.
  exists (shown_prompt prompt),
         (trace (retry_loop w (seq 0 (VSCODE_MAX_RETRIES w)) None)).
  split; [apply trace_call_vscode_llm|].
  unfold shown_prompt.
  destruct (Nat.ltb_spec 80 (String.length prompt)) as [Hlong | Hshort].
  - destruct (substring_head 80 prompt ltac:(lia)) as (tail & Hp & Hl).
    split; [|split].
    + rewrite length_app_string, Hl. simpl. lia.
    + intros H. lia.
    + intros _. now exists (substring 0 80 prompt), tail.
  - assert (Hs : (substring 0 80 prompt ++ "")%string = prompt).
    { rewrite substring_whole by lia. clear. induction prompt as [|c p IH];
        simpl; [reflexivity | now rewrite IH]. }
    rewrite Hs. split; [lia|]. split; [reflexivity | intros H; lia].
Qed.

Lemma rfind_app_suffix (sep tail : string) :
  rfind sep tail = Some 0 ->
  forall base : string, rfind sep (base ++ tail) = Some (String.length base).
Proof.
  intros H base. induction base as [|c base IH]; simpl; [exact H|].
  now rewrite IH.
Qed.

(** X13. [list_tools] works from the endpoint of the chat completions as
    well as from the base address: with [VSCODE_LLM_ENDPOINT] set to
    [base + "/v1/chat/completions"], for any [base], it asks
    [base + "/v1/tools"], the address it asks when the variable is [base]
    itself (a [base] without "/v1/chat"). *)
Theorem X13_tools_endpoint_from_chat_endpoint w (base : string) :
  (env_VSCODE_LLM_ENDPOINT w = Some (base ++ "/v1/chat/completions")%string ->
   tools_endpoint w = (base ++ "/v1/tools")%string /\
   endpoint w = (base ++ "/v1/chat/completions")%string) /\
  (env_VSCODE_LLM_ENDPOINT w = Some base ->
   str_in "/v1/chat" base = false ->
   tools_endpoint w = (base ++ "/v1/tools")%string).
Proof.
  split.
  - intros H. unfold tools_endpoint, endpoint. rewrite H. simpl.
    assert (Hin : str_in "/v1/chat" (base ++ "/v1/chat/completions") = true).
    { apply str_in_iff. now exists base, "/completions". }
    rewrite Hin. unfold rsplit_head.
    rewrite (rfind_app_suffix "/v1/" "/v1/chat/completions" eq_refl base).
    now rewrite substring_app_left.
  - intros H Hno. unfold tools_endpoint. rewrite H. simpl. now rewrite Hno.
Qed.

Lemma X13_witness :
  let w := {| VSCODE_MAX_RETRIES := 3;
              env_VSCODE_LLM_FALLBACK := None;
              env_VSCODE_LLM_ENDPOINT :=
                Some "http://localhost:9000/api/v1/chat/completions";
              env_ANTHROPIC_API_KEY := None;
              primary := fun _ => PostRaises (ExtClientError "refused");
              anthropic := AnthropicMessage hello |} in
  tools_endpoint w = "http://localhost:9000/api/v1/tools" /\
  endpoint w = "http://localhost:9000/api/v1/chat/completions".
Proof.
  apply (X13_tools_endpoint_from_chat_endpoint
           {| VSCODE_MAX_RETRIES := 3;
              env_VSCODE_LLM_FALLBACK := None;
              env_VSCODE_LLM_ENDPOINT :=
                Some "http://localhost:9000/api/v1/chat/completions";
              env_ANTHROPIC_API_KEY := None;
              primary := fun _ => PostRaises (ExtClientError "refused");
              anthropic := AnthropicMessage hello |}
           "http://localhost:9000/api").
  reflexivity.
Defined.

(** ** [main] *)

Lemma ran_app t1 t2 : ran (t1 ++ t2) = ran t1 ++ ran t2.
Proof.
  induction t1 as [|ev t1 IH]; simpl; [reflexivity|].
  destruct ev; simpl; now rewrite IH.
Qed.

Lemma ran_map_Ran t : ran (map Ran t) = t.
Proof. induction t as [|ev t IH]; simpl; [reflexivity | now rewrite IH]. Qed.

Lemma shown_app t1 t2 : shown (t1 ++ t2) = shown t1 ++ shown t2.
Proof.
  induction t1 as [|ev t1 IH]; simpl; [reflexivity|].
  destruct ev; simpl; now rewrite IH.
Qed.

Lemma shown_map_Ran t : shown (map Ran t) = [].
Proof. induction t as [|ev t IH]; simpl; [reflexivity | exact IH]. Qed.

(** X12. [main] never lets an exception out. When the first example fails,
    it prints the failure and returns: the second example is not run (no
    further request is sent) and "DONE" is not printed. When the first
    example returns, the second is run once, after the first, and "DONE" is
    printed whether the second returns or fails. *)
Theorem X12_main_stops_after_a_first_failure w answer api :
  let run1 := call_llm_with_fallback w prompt_1 in
  let run2 := call_llm_with_fallback (second_call w answer api) prompt_2 in
  let m := main w answer api in
  snd m = inr tt /\
  match outcome run1 with
  | inl e =>
      ran (fst m) = trace run1 /\
      In (MFailed e) (shown (fst m)) /\
      ~ In (MText "EXAMPLE 2: Code Generation") (shown (fst m)) /\
      ~ In (MText "DONE") (shown (fst m))
  | inr r =>
      ran (fst m) = trace run1 ++ trace run2 /\
      In (MResponse r) (shown (fst m)) /\
      In (MText "DONE") (shown (fst m)) /\
      match outcome run2 with
      | inl e => In (MFailed e) (shown (fst m))
      | inr r2 => In (MResponse r2) (shown (fst m))
      end
  end.
Proof.
  intros run1 run2 m. unfold m, main, main_example, call, outcome, trace.
  fold run1. fold run2.
  destruct run1 as [t1 [e1|r1]]; destruct run2 as [t2 [e2|r2]]; simpl;
    rewrite ?ran_app, ?ran_map_Ran, ?shown_app, ?shown_map_Ran; simpl;
    rewrite ?ran_app, ?ran_map_Ran, ?shown_app, ?shown_map_Ran; simpl;
    rewrite ?app_nil_r.
  all: repeat split; auto 20.
  all: try (intros H; repeat (destruct H as [H | H]; try discriminate);
            contradiction).
Qed.

(** ** When an attempt succeeds *)

Lemma py_get_dict obj key default v :
  py_get obj key default = inr v ->
  exists entries,
    obj = PDict entries /\
    v = match dict_lookup entries key with Some x => x | None => default end.
Proof.
  destruct obj; simpl; try discriminate. intros [= <-]. eauto.
Qed.

Lemma py_getitem_dict obj key v :
  py_getitem obj key = inr v ->
  exists entries, obj = PDict entries /\ dict_lookup entries key = Some v.
Proof.
  destruct obj as [| | | | | |entries]; simpl; try discriminate.
  destruct (dict_lookup entries key) eqn:E; [|discriminate].
  intros [= <-]. eauto.
Qed.

(** What reading a response returns is the content of the first choice of a
    document whose [usage] is well formed. *)
Lemma read_response_returns_shape k resp c :
  outcome (read_response k resp) = inr c ->
  status resp = 200%Z /\
  exists data,
    json resp = inr data /\
    first_choice_content data = Some c /\
    usage_well_formed data = true.
Proof.
  unfold read_response.
  destruct (Z.eqb_spec (status resp) 200) as [Hs|Hs]; simpl.
  - intros H. split; [exact Hs|]. revert H. exec.
    destruct (json resp) as [e|data]; simpl; [discriminate|]. exec.
    destruct (py_get data "choices" PNone) as [e|choices] eqn:Eg; simpl;
      [discriminate|].
    apply py_get_dict in Eg as (entries & -> & ->).
    destruct (truthy _) eqn:Et; simpl; [|discriminate]. exec.
    destruct (dict_lookup entries "choices") as [choices|] eqn:Ec;
      simpl in *; [|discriminate]. exec.
    destruct (py_getitem_0 choices) as [e|first] eqn:E0; simpl;
      [discriminate|]. exec.
    destruct (py_getitem first "message") as [e|msg] eqn:Em; simpl;
      [discriminate|]. exec.
    destruct (py_getitem msg "content") as [e|content0] eqn:Eco; simpl;
      [discriminate|]. exec.
    destruct (truthy content0) eqn:Etc; simpl; [|discriminate]. exec.
    apply py_getitem_dict in Em as (choice & -> & Em).
    apply py_getitem_dict in Eco as (m & -> & Eco).
    destruct choices as [| | | |s|[|x others]|d]; simpl in E0;
      try discriminate; [now destruct s|].
    injection E0 as ->.
    intros H. exists (PDict entries). split; [reflexivity|].
    unfold first_choice_content, usage_well_formed.
    rewrite Ec, Em. revert H.
    destruct (dict_lookup entries "usage") as [u|]; simpl.
    + destruct (truthy u) eqn:Eu; simpl; exec.
      * destruct u; simpl; try discriminate; exec.
        intros [= <-]. now split.
      * intros [= <-]. split; [exact Eco|]. now destruct u.
    + exec. intros [= <-]. now split.
  - exec. destruct (text resp); simpl; [discriminate|]. exec.
    now destruct (str_in "filtered" (lower s)).
Qed.

Lemma succeeded_shape w k c :
  attempt_result_of w k = Succeeded c ->
  exists resp data,
    primary w k = PostResponse resp /\
    status resp = 200%Z /\
    json resp = inr data /\
    first_choice_content data = Some c /\
    truthy c = true /\
    usage_well_formed data = true.
Proof.
  intros H. pose proof (succeeded_truthy w k c H) as Ht. revert H.
  rewrite attempt_result_of_request, outcome_request.
  destruct (primary w k) as [e|resp]; simpl.
  - now destruct (outcome (on_error k (raised e))).
  - destruct (outcome (read_response k resp)) as [e|c'] eqn:E.
    + now destruct (outcome (on_error k e)).
    + intros [= ->].
      apply read_response_returns_shape in E as (Hs & data & Hj & Hc & Hu).
      now exists resp, data.
Qed.

(** X14. An attempt of [call_vscode_llm] returns [c] exactly when the
    request is answered with status 200 and a JSON document whose first
    choice has message content [c], [c] is not empty, and [usage] is absent,
    empty or an object. *)
Theorem X14_attempt_succeeds_iff w k c :
  attempt_result_of w k = Succeeded c <->
  exists resp data,
    primary w k = PostResponse resp /\
    status resp = 200%Z /\
    json resp = inr data /\
    first_choice_content data = Some c /\
    truthy c = true /\
    usage_well_formed data = true.
Proof.
  split.
  - apply succeeded_shape.
  - intros (resp & data & Hp & Hs & Hj & Hc & Ht & Hu).
    eapply content_succeeds; eauto.
Qed.

(** ** The coroutines without retry *)

Arguments s_bind : simpl never.

Lemma snd_s_bind {A B} (c : Script A) (k : A -> Script B) :
  snd (s_bind c k) =
  match snd c with inr a => snd (k a) | inl e => inl e end.
Proof.
  destruct c as [t [e|a]]; unfold s_bind; simpl; [reflexivity|].
  now destruct (k a).
Qed.

Lemma fst_s_bind {A B} (c : Script A) (k : A -> Script B) :
  fst (s_bind c k) =
  fst c ++ match snd c with inr a => fst (k a) | inl _ => [] end.
Proof.
  destruct c as [t [e|a]]; unfold s_bind; simpl.
  - now rewrite app_nil_r.
  - now destruct (k a).
Qed.

Ltac s_exec :=
  unfold s_lift, s_await, s_ret, s_raise, say, s_emit in *;
  repeat (progress (rewrite ?snd_s_bind, ?fst_s_bind; simpl)).

Lemma simple_sends_one_request w answer prompt model :
  posted (fst (simple_call_vscode_llm w answer prompt model)) = 1.
Proof.
  unfold posted, simple_call_vscode_llm, api_error. s_exec.
  repeat (rewrite ?filter_app, ?length_app; simpl).
  destruct answer as [e|resp]; simpl; [reflexivity|].
  repeat (s_exec; try branch); reflexivity.
Qed.

Lemma auto_sends_one_request w answer use_tools tool_execution rounds :
  posted (fst (chat_with_auto_tools w answer use_tools tool_execution rounds))
  = 1.
Proof.
  unfold posted, chat_with_auto_tools, api_error. s_exec.
  repeat (rewrite ?filter_app, ?length_app; simpl).
  destruct answer as [e|resp]; simpl; [reflexivity|].
  repeat (s_exec; try branch); reflexivity.
Qed.

(** What the two coroutines do with a first choice that has a message. *)
Lemma simple_reads_content w resp entries choice others msg prompt model :
  status resp = 200%Z ->
  json resp = inr (PDict entries) ->
  dict_lookup entries "choices" = Some (PList (PDict choice :: others)) ->
  dict_lookup choice "message" = Some (PDict msg) ->
  usage_well_formed (PDict entries) = true ->
  snd (simple_call_vscode_llm w (PostResponse resp) prompt model) =
  match dict_lookup msg "content" with
  | Some c => inr c
  | None => inl (KeyError (PStr "content"))
  end.
Proof.
  intros Hs Hj Ec Em Hu.
  unfold simple_call_vscode_llm. s_exec. rewrite Hs, Hj. simpl.
  s_exec. rewrite Ec. s_exec. rewrite Em. s_exec.
  destruct (dict_lookup msg "content") as [c|]; s_exec; [|reflexivity].
  unfold usage_well_formed in Hu.
  destruct (dict_lookup entries "usage") as [u|]; s_exec; [|reflexivity].
  destruct u as [| | | | | |usage]; simpl in Hu; s_exec;
    try (apply negb_true_iff in Hu; simpl in Hu; rewrite Hu; now s_exec);
    try reflexivity.
  now destruct usage; s_exec.
Qed.

Lemma auto_reads_content w resp entries choice others msg use_tools
  tool_execution rounds :
  status resp = 200%Z ->
  json resp = inr (PDict entries) ->
  dict_lookup entries "choices" = Some (PList (PDict choice :: others)) ->
  dict_lookup choice "message" = Some (PDict msg) ->
  snd (chat_with_auto_tools w (PostResponse resp) use_tools tool_execution
         rounds) =
  inr (match dict_lookup msg "content" with Some c => c | None => PStr "" end).
Proof.
  intros Hs Hj Ec Em.
  unfold chat_with_auto_tools. s_exec. rewrite Hs, Hj. simpl.
  s_exec. rewrite Ec. s_exec. rewrite Em. s_exec.
  destruct (truthy match dict_lookup msg "tool_calls" with
                   | Some v => v | None => PNone end); now s_exec.
Qed.

Lemma simple_missing_content w resp entries choice others msg prompt model :
  status resp = 200%Z ->
  json resp = inr (PDict entries) ->
  dict_lookup entries "choices" = Some (PList (PDict choice :: others)) ->
  dict_lookup choice "message" = Some (PDict msg) ->
  dict_lookup msg "content" = None ->
  snd (simple_call_vscode_llm w (PostResponse resp) prompt model) =
  inl (KeyError (PStr "content")).
Proof.
  intros Hs Hj Ec Em Hc.
  unfold simple_call_vscode_llm. s_exec. rewrite Hs, Hj. simpl.
  s_exec. rewrite Ec. s_exec. rewrite Em. s_exec. rewrite Hc. now s_exec.
Qed.

(** X15. The three readers of a chat completion agree where the one with
    retry succeeds: on an answer for which an attempt of [call_vscode_llm]
    of the full example returns [c], [call_vscode_llm] of the simple example
    and [chat_with_auto_tools] return [c] too, each after one request. *)
Theorem X15_readers_agree_where_the_full_example_succeeds
  w k c prompt model use_tools tool_execution rounds :
  attempt_result_of w k = Succeeded c ->
  let simple := simple_call_vscode_llm w (primary w k) prompt model in
  let auto := chat_with_auto_tools w (primary w k) use_tools tool_execution
                rounds in
  snd simple = inr c /\ posted (fst simple) = 1 /\
  snd auto = inr c /\ posted (fst auto) = 1.
Proof.
  intros H simple auto.
  apply succeeded_shape in H as (resp & data & Hp & Hs & Hj & Hc & _ & Hu).
  apply first_choice_content_shape in Hc
    as (entries & choice & others & msg & -> & Ec & Em & Hc).
  unfold simple, auto. rewrite Hp.
  rewrite (simple_reads_content w resp entries choice others msg); auto.
  rewrite (auto_reads_content w resp entries choice others msg); auto.
  rewrite Hc, simple_sends_one_request, auto_sends_one_request. auto.
Qed.

Lemma X15_witness :
  let w := shipped (PostResponse (ok_response (chat_completion (PStr "4"))))
                   (AnthropicMessage hello) in
  let simple := simple_call_vscode_llm w (primary w 0) "What is 2 + 2?"
                  "claude-3-5-sonnet" in
  let auto := chat_with_auto_tools w (primary w 0) true "auto" 5 in
  snd simple = inr (PStr "4") /\ posted (fst simple) = 1 /\
  snd auto = inr (PStr "4") /\ posted (fst auto) = 1.
Proof.
  apply (X15_readers_agree_where_the_full_example_succeeds
           (shipped (PostResponse (ok_response (chat_completion (PStr "4"))))
                    (AnthropicMessage hello))
           0 (PStr "4") "What is 2 + 2?" "claude-3-5-sonnet" true "auto" 5%Z).
  reflexivity.
Defined.

(** X16. The coroutines without retry have no test for an empty content.
    For a status 200 whose first choice has an empty content ([""],
    [None], ...), [chat_with_auto_tools] returns that content as a success,
    and so does [call_vscode_llm] of the simple example when [usage] is
    absent, empty or an object (it reads [usage] before it returns); the
    attempt of the full example records an [EmptyResponseError], whatever
    [usage] is. *)
Theorem X16_empty_content_is_returned_without_retry
  w k resp data c prompt model use_tools tool_execution rounds :
  primary w k = PostResponse resp ->
  status resp = 200%Z ->
  json resp = inr data ->
  first_choice_content data = Some c ->
  truthy c = false ->
  snd (chat_with_auto_tools w (PostResponse resp) use_tools tool_execution
         rounds) = inr c /\
  attempt_result_of w k =
    Failed (EmptyResponseError "Empty content in response") /\
  (usage_well_formed data = true ->
   snd (simple_call_vscode_llm w (PostResponse resp) prompt model) = inr c).
Proof.
  intros Hp Hs Hj Hc Ht.
  pose proof (empty_content_fails w k resp data c Hp Hs Hj Hc Ht) as Hfull.
  apply first_choice_content_shape in Hc
    as (entries & choice & others & msg & -> & Ec & Em & Hc).
  split; [|split].
  - rewrite (auto_reads_content w resp entries choice others msg); auto.
    now rewrite Hc.
  - exact Hfull.
  - intros Hu.
    rewrite (simple_reads_content w resp entries choice others msg); auto.
    now rewrite Hc.
Qed.

Lemma X16_witness :
  let data := PDict [("choices",
                      PList [PDict [("message",
                                     PDict [("content", PNone)])]]);
                     ("usage", PDict [("prompt_tokens", PInt 7)])] in
  let resp := ok_response data in
  let w := shipped (PostResponse resp) (AnthropicMessage hello) in
  snd (chat_with_auto_tools w (PostResponse resp) true "auto" 5) = inr PNone /\
  attempt_result_of w 0 =
    Failed (EmptyResponseError "Empty content in response") /\
  snd (simple_call_vscode_llm w (PostResponse resp) "hi" "claude-3-5-sonnet")
    = inr PNone.
Proof.
  destruct (X16_empty_content_is_returned_without_retry
              (shipped
                 (PostResponse
                    (ok_response
                       (PDict [("choices",
                                PList [PDict [("message",
                                               PDict [("content", PNone)])]]);
                               ("usage", PDict [("prompt_tokens", PInt 7)])])))
                 (AnthropicMessage hello))
              0
              (ok_response
                 (PDict [("choices",
                          PList [PDict [("message",
                                         PDict [("content", PNone)])]]);
                         ("usage", PDict [("prompt_tokens", PInt 7)])]))
              (PDict [("choices",
                       PList [PDict [("message", PDict [("content", PNone)])]]);
                      ("usage", PDict [("prompt_tokens", PInt 7)])])
              PNone "hi" "claude-3-5-sonnet" true "auto" 5%Z
              eq_refl eq_refl eq_refl eq_refl eq_refl)
    as (Hauto & Hfull & Hsimple).
  split; [exact Hauto|]. split; [exact Hfull|]. apply Hsimple. reflexivity.
Defined.

(** With a [usage] that is not an object, the simple example raises where
    it reads it, even for an empty content. *)
Example simple_usage_not_an_object :
  snd (simple_call_vscode_llm
         (shipped (PostRaises (ExtClientError "")) (AnthropicMessage hello))
         (PostResponse
            (ok_response
               (PDict [("choices",
                        PList [PDict [("message",
                                       PDict [("content", PStr "")])]]);
                       ("usage", PStr "n/a")])))
         "hi" "claude-3-5-sonnet")
  = inl AttributeError.
Proof. reflexivity. Qed.

(** X17. A message without ['content'] (a message that only has tool
    calls): [chat_with_auto_tools] returns the empty string, by its
    [message.get('content', '')], where both versions of [call_vscode_llm]
    raise [KeyError('content')], the one with retry out of its loop. *)
Theorem X17_only_auto_tools_tolerates_a_missing_content
  w k resp entries choice others msg prompt model use_tools tool_execution
  rounds :
  primary w k = PostResponse resp ->
  status resp = 200%Z ->
  json resp = inr (PDict entries) ->
  dict_lookup entries "choices" = Some (PList (PDict choice :: others)) ->
  dict_lookup choice "message" = Some (PDict msg) ->
  dict_lookup msg "content" = None ->
  snd (chat_with_auto_tools w (PostResponse resp) use_tools tool_execution
         rounds) = inr (PStr "") /\
  snd (simple_call_vscode_llm w (PostResponse resp) prompt model) =
    inl (KeyError (PStr "content")) /\
  attempt_result_of w k = Escaped (KeyError (PStr "content")).
Proof.
  intros Hp Hs Hj Ec Em Hc. split; [|split].
  - rewrite (auto_reads_content w resp entries choice others msg); auto.
    now rewrite Hc.
  - eapply simple_missing_content; eauto.
  - eapply missing_content_escapes; eauto.
Qed.

Lemma X17_witness :
  let data := PDict [("choices",
                      PList [PDict [("message",
                                     PDict [("role", PStr "assistant");
                                            ("tool_calls",
                                             PList [PDict []])])]])] in
  let w := shipped (PostResponse (ok_response data)) (AnthropicMessage hello) in
  snd (chat_with_auto_tools w (PostResponse (ok_response data)) true "auto" 5)
    = inr (PStr "") /\
  snd (simple_call_vscode_llm w (PostResponse (ok_response data)) "hi"
         "claude-3-5-sonnet") = inl (KeyError (PStr "content")) /\
  attempt_result_of w 0 = Escaped (KeyError (PStr "content")).
Proof.
  apply (X17_only_auto_tools_tolerates_a_missing_content
           (shipped
              (PostResponse
                 (ok_response
                    (PDict [("choices",
                             PList [PDict [("message",
                                            PDict [("role", PStr "assistant");
                                                   ("tool_calls",
                                                    PList [PDict []])])]])])))
              (AnthropicMessage hello))
           0
           (ok_response
              (PDict [("choices",
                       PList [PDict [("message",
                                      PDict [("role", PStr "assistant");
                                             ("tool_calls",
                                              PList [PDict []])])]])]))
           [("choices",
             PList [PDict [("message",
                            PDict [("role", PStr "assistant");
                                   ("tool_calls", PList [PDict []])])]])]
           [("message",
             PDict [("role", PStr "assistant");
                    ("tool_calls", PList [PDict []])])]
           []
           [("role", PStr "assistant"); ("tool_calls", PList [PDict []])]
           "hi" "claude-3-5-sonnet" true "auto" 5%Z);
    reflexivity.
Defined.

(** ** Filtered prompts *)

Lemma filtered_fails w k resp body :
  primary w k = PostResponse resp ->
  status resp <> 200%Z ->
  text resp = inr body ->
  contains_ci "filtered" body ->
  attempt_result_of w k =
    Failed (ContentFilteredError ("Content filtered: " ++ body)).
Proof.
  intros Hp Hs Ht Hc.
  rewrite (error_status_fails w k resp body Hp Hs Ht).
  apply (str_in_lower_iff "filtered" body) in Hc.
  change (lower "filtered") with "filtered" in Hc. now rewrite Hc.
Qed.

(** X18. A content filter does not end a run. When every attempt is
    answered with a filtered error, each one is retried after its delay
    like any failure, and with fallback available the same prompt is then
    sent once to the secondary backend, whose answer the run returns. *)
Theorem X18_filtered_prompt_is_retried_and_falls_back w prompt :
  (forall k, k < VSCODE_MAX_RETRIES w ->
     exists resp body,
       primary w k = PostResponse resp /\ status resp <> 200%Z /\
       text resp = inr body /\ contains_ci "filtered" body) ->
  VSCODE_LLM_FALLBACK_ENABLED w = true ->
  fallback_available w = true ->
  let run := call_llm_with_fallback w prompt in
  wire (trace run) =
    schedule w (seq 0 (VSCODE_MAX_RETRIES w)) ++ [AnthropicCreate] /\
  sleeps (trace run) = map wait_time (seq 0 (VSCODE_MAX_RETRIES w - 1)) /\
  match anthropic w with
  | AnthropicMessage m => outcome run = inr (PStr (join_text (content m)))
  | AnthropicRaises cls msg => outcome run = inl (OtherError cls msg)
  end.
Proof.
  intros Hfiltered Hen Hav run.
  assert (Hex : primary_exhausted w).
  { intros j Hj. destruct (Hfiltered j Hj) as (resp & body & Hp & Hs & Ht & Hc).
    eexists. eapply filtered_fails; eauto. }
  destruct (pipeline_exhausted w prompt Hex)
    as (e & _ & _ & _ & Hw & Ht & Ho).
  destruct (fallback_or_raise_falls_back w e Hen Hav) as [Hf Hres].
  assert (Hwire : wire (trace run) =
            schedule w (seq 0 (VSCODE_MAX_RETRIES w)) ++ [AnthropicCreate]).
  { unfold run. now rewrite Ht, wire_app, Hw, Hf. }
  split; [exact Hwire|]. split.
  - rewrite <- sleeps_wire, Hwire, sleeps_app, sleeps_schedule. simpl.
    now rewrite app_nil_r.
  - unfold run. rewrite Ho. destruct (anthropic w); [exact Hres|].
    now destruct Hres.
Qed.

Lemma X18_witness :
  let w := shipped (PostResponse
                      (error_response 400 "Response was FILTERED by policy"))
                   (AnthropicMessage hello) in
  let run := call_llm_with_fallback w "hi" in
  wire (trace run) = schedule w (seq 0 3) ++ [AnthropicCreate] /\
  sleeps (trace run) = map wait_time (seq 0 2) /\
  outcome run = inr (PStr "Hello world").
Proof.
  apply (X18_filtered_prompt_is_retried_and_falls_back
           (shipped (PostResponse
                       (error_response 400 "Response was FILTERED by policy"))
                    (AnthropicMessage hello)) "hi").
  - intros k _. exists (error_response 400 "Response was FILTERED by policy"),
                  "Response was FILTERED by policy".
    repeat split; [simpl; lia|].
    exists "Response was ", "FILTERED", " by policy". split; reflexivity.
  - reflexivity.
  - reflexivity.
Defined.
